(** * The Astra DB destination connector: upload stager and uploader

    A shallow embedding of
    [unstructured/ingest/v2/processes/connectors/astradb.py]:
    the staging transform [conform_dict], the stager's [run], the
    uploader's [get_collection] and [run], over an explicit model of the
    Python objects, the file system and the remote store they act on. *)

From Stdlib Require Import ZArith String List Lia.
From stdpp Require Import base option list gmap strings.

Local Open Scope string_scope.
Local Open Scope Z_scope.
Local Open Scope list_scope.

Set Warnings "-register-all,-clear-no-such-hyp".

(** ** JSON documents and Python values *)

(** What [json.load] returns: [None], [bool], [int], [float], [str],
    [list] and [dict]. A float is kept as its [repr], which the program
    never inspects. A dict is insertion-ordered: a list of entries. *)
Inductive json : Type :=
| JNull
| JBool (b : bool)
| JInt (z : Z)
| JFloat (repr : string)
| JStr (s : string)
| JArr (items : list json)
| JObj (members : list (string * json)).

Abbreviation dict := (list (string * json)).

(** *** Dict operations *)

(** [d.get(k)]: the value of the entry under [k]. *)
Fixpoint dict_get (k : string) (d : dict) : option json :=
  match d with
  | [] => None
  | (k', v) :: d' => if String.eqb k' k then Some v else dict_get k d'
  end.

(** [del d[k]]: no entry under [k] remains; the other entries keep their
    order. *)
Fixpoint dict_del (k : string) (d : dict) : dict :=
  match d with
  | [] => []
  | (k', v) :: d' =>
      if String.eqb k' k then dict_del k d' else (k', v) :: dict_del k d'
  end.

(** [d[k] = v]: an existing key keeps its position, a new key goes last. *)
Fixpoint dict_set (k : string) (v : json) (d : dict) : dict :=
  match d with
  | [] => [(k, v)]
  | (k', v') :: d' =>
      if String.eqb k' k then (k, v) :: d' else (k', v') :: dict_set k v d'
  end.

(** [d.pop(k, default)]: the value under [k] (or [default]) and the dict
    that is left. *)
Definition dict_pop (k : string) (default : json) (d : dict) : json * dict :=
  (match dict_get k d with Some v => v | None => default end, dict_del k d).

Definition dict_keys (d : dict) : list string := map fst d.

(** *** The text of a JSON document, as lexemes *)

(** The character level (number syntax, string escapes, white space) is
    the [json] library's; a file's text is modelled as its sequence of
    lexemes. *)
Inductive lexeme : Type :=
| LNull | LTrue | LFalse
| LInt (z : Z) | LFloat (repr : string) | LString (s : string)
| LBracketOpen | LBracketClose | LBraceOpen | LBraceClose
| LComma | LColon.

(** [json.JSONEncoder.iterencode]: the pieces [json.dump] writes, in the
    order it writes them. [encode_items] and [encode_members] write what
    follows the opening bracket or brace. *)
Fixpoint encode_items (enc : json -> list lexeme) (l : list json)
  : list lexeme :=
  match l with
  | [] => [LBracketClose]
  | x :: l' =>
      enc x ++
      match l' with
      | [] => [LBracketClose]
      | _ :: _ => LComma :: encode_items enc l'
      end
  end.

Fixpoint encode_members (enc : json -> list lexeme) (l : dict)
  : list lexeme :=
  match l with
  | [] => [LBraceClose]
  | (k, x) :: l' =>
      LString k :: LColon :: enc x ++
      match l' with
      | [] => [LBraceClose]
      | _ :: _ => LComma :: encode_members enc l'
      end
  end.

Fixpoint iterencode (v : json) : list lexeme :=
  match v with
  | JNull => [LNull]
  | JBool true => [LTrue]
  | JBool false => [LFalse]
  | JInt z => [LInt z]
  | JFloat r => [LFloat r]
  | JStr s => [LString s]
  | JArr items => LBracketOpen :: encode_items iterencode items
  | JObj members => LBraceOpen :: encode_members iterencode members
  end.

(** [json.load]'s decoder. [PValue] reads one value; [PItems acc] reads
    the rest of an array after its opening bracket, [PMembers acc] the
    rest of an object. A repeated key overwrites, as in a Python dict. *)
Inductive pmode : Type :=
| PValue
| PItems (acc : list json)
| PMembers (acc : dict).

Fixpoint decode (fuel : nat) (m : pmode) (ts : list lexeme)
  : option (json * list lexeme) :=
  match fuel with
  | O => None
  | S fuel =>
      match m with
      | PValue =>
          match ts with
          | LNull :: r => Some (JNull, r)
          | LTrue :: r => Some (JBool true, r)
          | LFalse :: r => Some (JBool false, r)
          | LInt z :: r => Some (JInt z, r)
          | LFloat x :: r => Some (JFloat x, r)
          | LString s :: r => Some (JStr s, r)
          | LBracketOpen :: LBracketClose :: r => Some (JArr [], r)
          | LBracketOpen :: r => decode fuel (PItems []) r
          | LBraceOpen :: LBraceClose :: r => Some (JObj [], r)
          | LBraceOpen :: r => decode fuel (PMembers []) r
          | _ => None
          end
      | PItems acc =>
          match decode fuel PValue ts with
          | Some (v, LComma :: r) => decode fuel (PItems (acc ++ [v])) r
          | Some (v, LBracketClose :: r) => Some (JArr (acc ++ [v]), r)
          | _ => None
          end
      | PMembers acc =>
          match ts with
          | LString k :: LColon :: r =>
              match decode fuel PValue r with
              | Some (v, LComma :: r') =>
                  decode fuel (PMembers (dict_set k v acc)) r'
              | Some (v, LBraceClose :: r') =>
                  Some (JObj (dict_set k v acc), r')
              | _ => None
              end
          | _ => None
          end
      end
  end.

(** Every step of [decode] but the one from [PItems] to [PValue] uses up
    a lexeme, so twice the length of the text is fuel enough. *)
Definition decode_fuel (ts : list lexeme) : nat := S (2 * length ts).

(** A document is one value and nothing after it. *)
Definition json_loads (ts : list lexeme) : option json :=
  match decode (decode_fuel ts) PValue ts with
  | Some (v, []) => Some v
  | _ => None
  end.

(** ** The world the connector runs in *)

(** Python exceptions the connector can raise or let through. *)
Inductive exn : Type :=
| FileNotFoundError (path : string)
| PermissionError (path : string)
| IsADirectoryError (path : string)
| OSError (path : string)
| JSONDecodeError
| TypeError
| AttributeError
| ImportError (package : string)
| AstraError (operation : string).

Inductive result (A : Type) : Type :=
| Ok (a : A)
| Raise (e : exn).
Arguments Ok {A} a.
Arguments Raise {A} e.

Definition loc := positive.

(** A value held by a Python variable or dict slot: an immutable value,
    or a reference to an object of the store. *)
Inductive pyval : Type :=
| Imm (v : json)
| Ref (l : loc).

Abbreviation pydict := (list (string * pyval)).

(** A call on the Astra DB client library, or a log line. *)
Inductive event : Type :=
| EvLogInfo (count : nat) (collection : string)
| EvAstraDB (api_endpoint token : string) (namespace : option string)
    (caller_name caller_version : string)
| EvCreateCollection (collection_name : string) (dimension : Z)
    (options : option dict)
| EvInsertMany (collection : string) (documents : list json).

(** The remote store and the [astrapy] package, as the connector sees
    them: whether the package can be imported, and which calls the store
    refuses. [insert_many_fails n docs] answers the call that comes after
    [n] earlier [insert_many] calls. *)
Record astra : Type := {
  astrapy_installed : bool;
  integration_version : string;
  create_collection_fails : string -> Z -> option dict -> bool;
  insert_many_fails : nat -> list json -> bool
}.

(** Why [open(path, "w")] fails on a path that cannot be opened: a
    directory on the way is missing, permission is denied, the path
    names a directory, or the system refuses for another reason (a
    read-only file system, say). *)
Inductive open_failure : Type :=
| NoDirectory
| NoPermission
| IsDirectory
| OtherFailure.

(** The [OSError] subclass [open] raises for each. *)
Definition open_error (why : open_failure) (path : string) : exn :=
  match why with
  | NoDirectory => FileNotFoundError path
  | NoPermission => PermissionError path
  | IsDirectory => IsADirectoryError path
  | OtherFailure => OSError path
  end.

(** - [heap]: the objects [json.load] built, by location;
    - [files]: the text of every file, by path;
    - [unwritable]: paths that cannot be opened for writing;
    - [denial]: for such a path, why not;
    - [quota]: how many more lexemes the disk takes ([None]: no limit);
    - [remote], [trace]: the store, and the calls made on it so far. *)
Record world : Type := {
  heap : gmap loc json;
  files : gmap string (list lexeme);
  unwritable : string -> bool;
  denial : string -> open_failure;
  quota : option nat;
  remote : astra;
  trace : list event
}.

Definition set_heap (h : gmap loc json) (w : world) : world :=
  {| heap := h; files := files w; unwritable := unwritable w;
     denial := denial w; quota := quota w; remote := remote w; trace := trace w |}.

Definition set_files (f : gmap string (list lexeme)) (w : world) : world :=
  {| heap := heap w; files := f; unwritable := unwritable w;
     denial := denial w; quota := quota w; remote := remote w; trace := trace w |}.

Definition set_quota (q : option nat) (w : world) : world :=
  {| heap := heap w; files := files w; unwritable := unwritable w;
     denial := denial w; quota := q; remote := remote w; trace := trace w |}.

Definition set_trace (t : list event) (w : world) : world :=
  {| heap := heap w; files := files w; unwritable := unwritable w;
     denial := denial w; quota := quota w; remote := remote w; trace := t |}.

Definition emit (e : event) (w : world) : world :=
  set_trace (trace w ++ [e]) w.

(** *** Computations: a state and exception monad

    An exception ends the computation and leaves the world as it was
    when it was raised. *)
Definition M (A : Type) : Type := world -> result A * world.

#[global] Instance M_ret : MRet M := fun A a w => (Ok a, w).

#[global] Instance M_bind : MBind M := fun A B k m w =>
  match m w with
  | (Ok a, w') => k a w'
  | (Raise e, w') => (Raise e, w')
  end.

Definition raise {A} (e : exn) : M A := fun w => (Raise e, w).

(** [for x in xs: body(x)], collecting what the bodies return. *)
Fixpoint for_each {A B} (body : A -> M B) (xs : list A) : M (list B) :=
  match xs with
  | [] => mret []
  | x :: xs' =>
      y ← body x;
      ys ← for_each body xs';
      mret (y :: ys)
  end.

(** *** Objects of the store *)

(** A new object holding [v], at a location not in use. *)
Definition alloc (v : json) : M loc := fun w =>
  let l := fresh (dom (heap w)) in
  (Ok l, set_heap (<[l := v]> (heap w)) w).

(** The value a slot stands for when it is written out. *)
Definition resolve (h : gmap loc json) (pv : pyval) : json :=
  match pv with
  | Imm v => v
  | Ref l => default JNull (h !! l)
  end.

Definition snapshot (h : gmap loc json) (d : pydict) : json :=
  JObj (map (fun e => (e.1, resolve h e.2)) d).

(** One-character strings of a [str], in order. *)
Fixpoint chars (s : string) : list json :=
  match s with
  | EmptyString => []
  | String c s' => JStr (String c EmptyString) :: chars s'
  end.

(** What iterating over a value yields: the items of a list, the keys of
    a dict, the characters of a str; anything else is not iterable. *)
Definition iter_items (v : json) : M (list json) :=
  match v with
  | JArr items => mret items
  | JObj d => mret (map JStr (dict_keys d))
  | JStr s => mret (chars s)
  | _ => raise TypeError
  end.

(** [for x in v]: the items, each an object of the store. *)
Definition py_iter (v : json) : M (list loc) :=
  items ← iter_items v;
  for_each alloc items.

(** [obj.pop(k, default)] on the object at [l]. A dict loses the entry;
    a list's [pop] takes no default ([TypeError]); other values have no
    [pop] ([AttributeError]). *)
Definition py_pop (l : loc) (k : string) (default : json) : M json := fun w =>
  match heap w !! l with
  | Some (JObj d) =>
      let '(v, d') := dict_pop k default d in
      (Ok v, set_heap (<[l := JObj d']> (heap w)) w)
  | Some (JArr _) => (Raise TypeError, w)
  | _ => (Raise AttributeError, w)
  end.

(** *** Files *)

(** [Path(dir) / Path(name)], on paths in [pathlib]'s normal form: an
    absolute right operand replaces the left one. *)
Definition path_join (dir name : string) : string :=
  if String.prefix "/" name then name else dir +:+ "/" +:+ name.

(** [with open(path) as f: json.load(f)]. *)
Definition json_load (path : string) : M json := fun w =>
  match files w !! path with
  | None => (Raise (FileNotFoundError path), w)
  | Some text =>
      match json_loads text with
      | Some v => (Ok v, w)
      | None => (Raise JSONDecodeError, w)
      end
  end.

(** [open(path, "w")]: the file exists and is empty from here on; on a
    path that cannot be opened, the error [open] raises for the reason. *)
Definition open_w (path : string) : M string := fun w =>
  if unwritable w path then (Raise (open_error (denial w path) path), w)
  else (Ok path, set_files (<[path := []]> (files w)) w).

(** [fp.write(chunk)]: the chunk goes after what the file holds, unless
    the disk is full. *)
Definition fp_write (path : string) (chunk : lexeme) : M unit := fun w =>
  match quota w with
  | Some O => (Raise (OSError path), w)
  | q =>
      let text := default [] (files w !! path) in
      (Ok tt, set_quota (Nat.pred <$> q)
                (set_files (<[path := text ++ [chunk]]> (files w)) w))
  end.

(** [json.dump(objs, fp)]: [for chunk in iterencode(objs): fp.write(chunk)].
    The dicts are read as they are in the store at this point. *)
Definition json_dump (objs : list pydict) (path : string) : M unit := fun w =>
  (for_each (fp_write path)
     (iterencode (JArr (map (snapshot (heap w)) objs))) ≫= fun _ => mret tt) w.

(** ** The upload stager *)

Module AstraDBUploadStager.

(** [conform_dict]: the two keys are popped from the element dict, which
    then goes, itself, under ["metadata"]. *)
Definition conform_dict (element_dict : loc) : M pydict :=
  vector ← py_pop element_dict "embeddings" JNull;
  content ← py_pop element_dict "text" JNull;
  mret [("$vector", Imm vector);
        ("content", Imm content);
        ("metadata", Ref element_dict)].

(** [run]; [file_data] and [kwargs] are not used. *)
Definition run (elements_filepath output_dir output_filename : string)
  : M string :=
  elements_contents ← json_load elements_filepath;
  elements ← py_iter elements_contents;
  conformed_elements ← for_each conform_dict elements;
  let output_path := path_join output_dir (output_filename +:+ ".json") in
  output_file ← open_w output_path;
  _ ← json_dump conformed_elements output_file;
  mret output_path.

End AstraDBUploadStager.

(** ** Configuration *)

Definition CONNECTOR_TYPE : string := "astradb".

Record AstraDBAccessConfig : Type := {
  token : string;
  api_endpoint : string
}.

Record AstraDBConnectionConfig : Type := {
  connection_type : string;
  access_config : AstraDBAccessConfig
}.

Record AstraDBUploaderConfig : Type := {
  collection_name : string;
  embedding_dimension : Z;
  namespace : option string;
  requested_indexing_policy : option dict;
  batch_size : Z
}.

(** The dataclass's generated [__init__]: the fields are stored as they
    are given; there is no [__post_init__]. An argument left out
    ([None] here) takes the field's default. *)
Definition new_AstraDBUploaderConfig
    (collection_name : string) (embedding_dimension : Z)
    (namespace : option string) (requested_indexing_policy : option dict)
    (batch_size : option Z) : result AstraDBUploaderConfig :=
  Ok {| collection_name := collection_name;
        embedding_dimension := embedding_dimension;
        namespace := namespace;
        requested_indexing_policy := requested_indexing_policy;
        batch_size := default 20 batch_size |}.

Record AstraDBUploader : Type := {
  connection_config : AstraDBConnectionConfig;
  upload_config : AstraDBUploaderConfig;
  connector_type : string
}.

Record UploadContent : Type := { path : string }.

(** The handle [create_collection] returns. *)
Record AstraDBCollection : Type := { handle_name : string }.

(** ** The uploader *)

Definition integration_name : string := "unstructured".

(** Truth value of an [Optional[dict]]: [None] and the empty dict are
    false. *)
Definition truthy (o : option dict) : bool :=
  match o with
  | Some (_ :: _) => true
  | _ => false
  end.

(** The [requires_dependencies(["astrapy"])] guard. *)
Definition requires_astrapy : M unit := fun w =>
  if astrapy_installed (remote w) then (Ok tt, w)
  else (Raise (ImportError "astrapy"), w).

(** [AstraDB(...)]: builds the client. *)
Definition AstraDB (api_endpoint token : string) (namespace : option string)
    (caller_name : string) : M unit := fun w =>
  (Ok tt, emit (EvAstraDB api_endpoint token namespace caller_name
                  (integration_version (remote w))) w).

(** [astra_db.create_collection(...)]: the call is made; the store
    accepts or refuses it. *)
Definition create_collection (collection_name : string) (dimension : Z)
    (options : option dict) : M AstraDBCollection := fun w =>
  let w' := emit (EvCreateCollection collection_name dimension options) w in
  if create_collection_fails (remote w) collection_name dimension options
  then (Raise (AstraError "create_collection"), w')
  else (Ok {| handle_name := collection_name |}, w').

Definition is_insert (e : event) : bool :=
  match e with EvInsertMany _ _ => true | _ => false end.

(** [collection.insert_many(chunk)]. *)
Definition insert_many (collection : AstraDBCollection) (chunk : list json)
  : M unit := fun w =>
  let n := length (filter (fun e => is_insert e = true) (trace w)) in
  let w' := emit (EvInsertMany (handle_name collection) chunk) w in
  if insert_many_fails (remote w) n chunk
  then (Raise (AstraError "insert_many"), w')
  else (Ok tt, w').

(** [logger.info(f"writing {n} objects to destination collection {name}")]. *)
Definition log_info (count : nat) (collection : string) : M unit := fun w =>
  (Ok tt, emit (EvLogInfo count collection) w).

(** Modelled from the spec: the loop of [batch_generator], which is not
    among the sources. Each round takes the next [batch_size] items as a
    chunk and goes on with the rest; it stops when that chunk is empty. *)
Fixpoint batches {A} (fuel : nat) (items : list A) (batch_size : nat)
  : list (list A) :=
  match fuel with
  | O => []
  | S fuel =>
      match take batch_size items with
      | [] => []
      | chunk => chunk :: batches fuel (drop batch_size items) batch_size
      end
  end.

(** Modelled from the spec: [batch_generator], of
    [unstructured.ingest.utils.data_prep], is not among the sources. The
    spec has it cut the sequence into consecutive, non-overlapping chunks
    of [batch_size] items, the last one possibly shorter, in sequence
    order. The spec gives a positive [batch_size] only: what this
    definition yields for other sizes stands for nothing in the code, and
    the properties that depend on the chunks assume [0 < batch_size]. *)
Definition batch_generator {A} (items : list A) (batch_size : Z)
  : list (list A) :=
  batches (length items) items (Z.to_nat batch_size).

(** The first loop of [run]: [elements_dict.extend(json.load(f))] for each
    content in turn. *)
Fixpoint load_contents (contents : list UploadContent)
    (elements_dict : list json) : M (list json) :=
  match contents with
  | [] => mret elements_dict
  | content :: rest =>
      elements ← json_load (path content);
      items ← iter_items elements;
      load_contents rest (elements_dict ++ items)
  end.

Module AstraDBUploader.

(** [get_collection]. *)
Definition get_collection (self : AstraDBUploader) : M AstraDBCollection :=
  _ ← requires_astrapy;
  let collection_name := collection_name (upload_config self) in
  let embedding_dimension := embedding_dimension (upload_config self) in
  let requested_indexing_policy :=
    requested_indexing_policy (upload_config self) in
  let options :=
    if truthy requested_indexing_policy
    then Some [("indexing", JObj (default [] requested_indexing_policy))]
    else None in
  astra_db ← AstraDB (api_endpoint (access_config (connection_config self)))
                     (token (access_config (connection_config self)))
                     (namespace (upload_config self))
                     integration_name;
  create_collection collection_name embedding_dimension options.

(** [run]. *)
Definition run (self : AstraDBUploader)
    (contents : list UploadContent) : M unit :=
  elements_dict ← load_contents contents [];
  _ ← log_info (length elements_dict) (collection_name (upload_config self));
  let astra_batch_size := batch_size (upload_config self) in
  collection ← get_collection self;
  _ ← for_each (insert_many collection)
        (batch_generator elements_dict astra_batch_size);
  mret tt.

End AstraDBUploader.

(** ** Notions used in the statements *)

(** A value all of whose dicts have each key once: what [json.load]
    builds. *)
Inductive wf : json -> Prop :=
| wf_null : wf JNull
| wf_bool b : wf (JBool b)
| wf_int z : wf (JInt z)
| wf_float r : wf (JFloat r)
| wf_str s : wf (JStr s)
| wf_arr items : Forall wf items -> wf (JArr items)
| wf_obj members :
    NoDup (dict_keys members) -> Forall (fun e => wf e.2) members ->
    wf (JObj members).

(** Induction on a value, with the hypothesis for every item of a list
    and every value of a dict. *)
Section json_induction.
Variable P : json → Prop.
Hypothesis Hnull : P JNull.
Hypothesis Hbool : ∀ b, P (JBool b).
Hypothesis Hint : ∀ z, P (JInt z).
Hypothesis Hfloat : ∀ r, P (JFloat r).
Hypothesis Hstr : ∀ s, P (JStr s).
Hypothesis Harr : ∀ items, Forall P items → P (JArr items).
Hypothesis Hobj :
  ∀ members, Forall (fun e => P e.2) members → P (JObj members).

Fixpoint json_nested_ind (v : json) : P v :=
  match v with
  | JNull => Hnull
  | JBool b => Hbool b
  | JInt z => Hint z
  | JFloat r => Hfloat r
  | JStr s => Hstr s
  | JArr items =>
      Harr items
        ((fix go (l : list json) : Forall P l :=
            match l with
            | [] => @List.Forall_nil _ P
            | x :: l' =>
                @List.Forall_cons _ P x l' (json_nested_ind x) (go l')
            end) items)
  | JObj members =>
      Hobj members
        ((fix go (l : dict) : Forall (fun e => P e.2) l :=
            match l with
            | [] => @List.Forall_nil _ _
            | (k, x) :: l' =>
                @List.Forall_cons _ (fun e => P e.2) (k, x) l'
                  (json_nested_ind x) (go l')
            end) members)
  end.
End json_induction.

(** Lexemes a value can start with. *)
Definition opens_value (t : lexeme) : Prop :=
  match t with
  | LBracketClose | LBraceClose | LComma | LColon => False
  | _ => True
  end.

(** [v] is read back from its text, whatever follows, given fuel for
    twice its length. *)
Definition decodes (v : json) : Prop :=
  ∀ fuel rest, (2 * length (iterencode v) ≤ fuel)%nat →
    decode fuel PValue (iterencode v ++ rest) = Some (v, rest).

(** What the decoder has collected so far is well formed. *)
Definition pmode_wf (m : pmode) : Prop :=
  match m with
  | PValue => True
  | PItems acc => Forall wf acc
  | PMembers acc => NoDup (dict_keys acc) ∧ Forall (fun e => wf e.2) acc
  end.

(** The value under [k], [None] when there is none. *)
Definition field (k : string) (d : dict) : json :=
  default JNull (dict_get k d).

(** The element dict once both keys are popped. *)
Definition stripped (d : dict) : dict :=
  dict_del "text" (dict_del "embeddings" d).

(** The dict [conform_dict] returns for the element at [l] that held [d]:
    its third slot is the element object itself. *)
Definition staged_slots (l : loc) (d : dict) : pydict :=
  [("$vector", Imm (field "embeddings" d));
   ("content", Imm (field "text" d));
   ("metadata", Ref l)].

(** The staged record as it is written out. *)
Definition staged_of (d : dict) : json :=
  JObj [("$vector", field "embeddings" d);
        ("content", field "text" d);
        ("metadata", JObj (stripped d))].

(** The [insert_many] calls of a trace, in order. *)
Definition insert_calls (t : list event) : list (list json) :=
  omap (fun e => match e with EvInsertMany _ docs => Some docs | _ => None end)
       t.

(** The options all [create_collection] calls of a trace were given. *)
Definition create_options (t : list event) : list (option dict) :=
  omap (fun e =>
          match e with EvCreateCollection _ _ o => Some o | _ => None end) t.

(** How many lexemes of [n] the disk takes. *)
Definition accepted (q : option nat) (n : nat) : nat :=
  match q with
  | None => n
  | Some k => Nat.min k n
  end.

(** The [options] argument [get_collection] builds. *)
Definition creation_options (c : AstraDBUploaderConfig) : option dict :=
  match requested_indexing_policy c with
  | Some (e :: p) => Some [("indexing", JObj (e :: p))]
  | _ => None
  end.

(** The store refuses to provision for this uploader, or [astrapy] is
    missing. *)
Definition provisioning_fails (r : astra) (self : AstraDBUploader) : bool :=
  negb (astrapy_installed r) ||
  create_collection_fails r
    (collection_name (upload_config self))
    (embedding_dimension (upload_config self))
    (creation_options (upload_config self)).

(** The events of a successful or refused [create_collection] round. *)
Definition provisioning_events (r : astra) (self : AstraDBUploader)
  : list event :=
  [EvAstraDB (api_endpoint (access_config (connection_config self)))
     (token (access_config (connection_config self)))
     (namespace (upload_config self)) integration_name
     (integration_version r);
   EvCreateCollection (collection_name (upload_config self))
     (embedding_dimension (upload_config self))
     (creation_options (upload_config self))].

(** Each content's file holds a JSON array: the staged records of that
    file. *)
Definition holds_arrays (w : world) (contents : list UploadContent)
    (staged : list (list json)) : Prop :=
  Forall2 (fun c items =>
             ∃ text, files w !! path c = Some text ∧
                     json_loads text = Some (JArr items))
          contents staged.

(** What iterating over a value yields, [None] when the value is not
    iterable. *)
Definition iterable_items (v : json) : option (list json) :=
  match v with
  | JArr items => Some items
  | JObj d => Some (map JStr (dict_keys d))
  | JStr s => Some (chars s)
  | _ => None
  end.

(** The exception [pop(key, default)] ends in on a value that is not a
    dict. *)
Definition pop_error (v : json) : exn :=
  match v with
  | JArr _ => TypeError
  | _ => AttributeError
  end.

Definition is_dict (v : json) : bool :=
  match v with
  | JObj _ => true
  | _ => false
  end.

(** [m] keeps [R] between the world it starts in and the world it
    leaves, whether it returns or raises. *)
Definition preserves {A} (R : world -> world -> Prop) (m : M A) : Prop :=
  forall w, R w (m w).2.

(** Nothing but the store of objects, the disk's room and the file at
    [out] differs. *)
Definition stager_frame (out : string) (w w' : world) : Prop :=
  trace w' = trace w /\ remote w' = remote w /\
  unwritable w' = unwritable w /\
  forall p, p <> out -> files w' !! p = files w !! p.

(** Nothing but the trace differs, and the trace has only grown. *)
Definition uploader_frame (w w' : world) : Prop :=
  heap w' = heap w /\ files w' = files w /\ quota w' = quota w /\
  unwritable w' = unwritable w /\ remote w' = remote w /\
  exists t, trace w' = trace w ++ t.

(** Each content's file holds a JSON document. *)
Definition holds_values (w : world) (contents : list UploadContent)
    (values : list json) : Prop :=
  Forall2 (fun c v =>
             exists text, files w !! path c = Some text /\
                          json_loads text = Some v)
          contents values.

(** The content's file cannot be read as a sequence of records: it is
    missing, is not JSON, or holds a value that is not iterable. *)
Definition unreadable (w : world) (c : UploadContent) : Prop :=
  match files w !! path c with
  | None => True
  | Some text =>
      match json_loads text with
      | None => True
      | Some v => iterable_items v = None
      end
  end.

(** *** Sample inputs *)

(** A store that accepts every call. *)
Definition willing_store : astra :=
  {| astrapy_installed := true;
     integration_version := "0.14.6";
     create_collection_fails := fun _ _ _ => false;
     insert_many_fails := fun _ _ => false |}.

(** A store that refuses to create collections. *)
Definition refusing_store : astra :=
  {| astrapy_installed := true;
     integration_version := "0.14.6";
     create_collection_fails := fun _ _ _ => true;
     insert_many_fails := fun _ _ => false |}.

Definition sample_world (r : astra) (f : gmap string (list lexeme))
    (q : option nat) : world :=
  {| heap := ∅; files := f; unwritable := fun _ => false;
     denial := fun _ => NoPermission; quota := q;
     remote := r; trace := [] |}.

(** [{"text": "hi", "embeddings": [0.1, 0.2], "source": "a"}]. *)
Definition sample_element : dict :=
  [("text", JStr "hi");
   ("embeddings", JArr [JFloat "0.1"; JFloat "0.2"]);
   ("source", JStr "a")].

(** What the sample element is staged to:
    [{"$vector": [0.1, 0.2], "content": "hi", "metadata": {"source": "a"}}]. *)
Definition sample_staged : json :=
  JObj [("$vector", JArr [JFloat "0.1"; JFloat "0.2"]);
        ("content", JStr "hi");
        ("metadata", JObj [("source", JStr "a")])].

(** The same record under the key ["vector"]. *)
Definition sample_staged_plain_key : json :=
  JObj [("vector", JArr [JFloat "0.1"; JFloat "0.2"]);
        ("content", JStr "hi");
        ("metadata", JObj [("source", JStr "a")])].

(** A world whose store holds [v] at location 1. *)
Definition sample_store (v : json) : world :=
  set_heap {[ 1%positive := v ]} (sample_world willing_store ∅ None).

Definition sample_elements_file : gmap string (list lexeme) :=
  {[ "elements.json" := iterencode (JArr [JObj sample_element]) ]}.

Definition sample_uploader (dimension : Z) (policy : option dict)
    (batch_size : Z) : AstraDBUploader :=
  {| connection_config :=
       {| connection_type := CONNECTOR_TYPE;
          access_config := {| token := "AstraCS:t";
                              api_endpoint := "https://db.example" |} |};
     upload_config :=
       {| collection_name := "docs";
          embedding_dimension := dimension;
          namespace := None;
          requested_indexing_policy := policy;
          batch_size := batch_size |};
     connector_type := CONNECTOR_TYPE |}.

(** [n] staged records [{"content": i}], from [i = start] on. *)
Definition sample_records (start n : nat) : list json :=
  map (fun i => JObj [("content", JInt (Z.of_nat i))]) (seq start n).

(** Two staged files, of 30 and of 15 records. *)
Definition sample_staged_files : gmap string (list lexeme) :=
  {[ "a.json" := iterencode (JArr (sample_records 0 30));
     "b.json" := iterencode (JArr (sample_records 30 15)) ]}.

Definition sample_contents : list UploadContent :=
  [{| path := "a.json" |}; {| path := "b.json" |}].

(** Three different elements: the sample one, one with a text only, one
    with a page number and embeddings but no text. *)
Definition sample_three_elements : list dict :=
  [sample_element;
   [("text", JStr "second")];
   [("page", JInt 3); ("embeddings", JArr [JFloat "0.5"])]].

Definition sample_three_file : gmap string (list lexeme) :=
  {[ "elements.json" := iterencode (JArr (map JObj sample_three_elements)) ]}.

(** What the three elements are staged to, in their order. *)
Definition sample_three_staged : list json :=
  [sample_staged;
   JObj [("$vector", JNull); ("content", JStr "second");
         ("metadata", JObj [])];
   JObj [("$vector", JArr [JFloat "0.5"]); ("content", JNull);
         ("metadata", JObj [("page", JInt 3)])]].

(** A world in which no file can be opened for writing, for the reason
    [why]. *)
Definition locked_world (why : open_failure)
    (f : gmap string (list lexeme)) : world :=
  {| heap := ∅; files := f; unwritable := fun _ => true;
     denial := fun _ => why; quota := None;
     remote := willing_store; trace := [] |}.

(** An elements file whose second item is a number. *)
Definition sample_mixed_file : gmap string (list lexeme) :=
  {[ "elements.json" := iterencode (JArr [JObj sample_element; JInt 7]) ]}.

(** A store that refuses the [insert_many] call that comes after [k]
    earlier ones, and takes the others. *)
Definition store_refusing_insert (k : nat) : astra :=
  {| astrapy_installed := true;
     integration_version := "0.14.6";
     create_collection_fails := fun _ _ _ => false;
     insert_many_fails := fun n _ => Nat.eqb n k |}.

(** A host on which [astrapy] is not installed. *)
Definition store_without_astrapy : astra :=
  {| astrapy_installed := false;
     integration_version := "0.14.6";
     create_collection_fails := fun _ _ _ => false;
     insert_many_fails := fun _ _ => false |}.

(** * Properties *)

(** ** Dicts *)

Section dict_facts.
Implicit Types (k : string) (v : json) (d : dict).

Lemma dict_get_del_eq k d : dict_get k (dict_del k d) = None.
Proof.
  induction d as [|[k' v] d IH]; simpl; [done|].
  destruct (String.eqb k' k) eqn:E; simpl; [done|]. by rewrite E.
Qed.

Lemma dict_get_del_ne k k' d :
  k ≠ k' → dict_get k' (dict_del k d) = dict_get k' d.
Proof.
  intros Hne. induction d as [|[k0 v] d IH]; simpl; [done|].
  destruct (String.eqb k0 k) eqn:E; simpl.
  - apply String.eqb_eq in E as ->.
    destruct (String.eqb k k') eqn:E'; [by apply String.eqb_eq in E'|done].
  - by rewrite IH.
Qed.

Lemma dict_get_None k d : dict_get k d = None ↔ k ∉ dict_keys d.
Proof.
  induction d as [|[k' v] d IH]; simpl.
  - split; [intros _; apply not_elem_of_nil|done].
  - rewrite not_elem_of_cons. destruct (String.eqb k' k) eqn:E.
    + apply String.eqb_eq in E as ->. split; [done|]. by intros [? _].
    + apply String.eqb_neq in E. rewrite IH. naive_solver.
Qed.

Lemma dict_get_elem_of k v d : dict_get k d = Some v → (k, v) ∈ d.
Proof.
  induction d as [|[k' v'] d IH]; simpl; [done|].
  destruct (String.eqb k' k) eqn:E.
  - apply String.eqb_eq in E as ->. intros [= ->]. left.
  - intros H. right. auto.
Qed.

Lemma dict_del_elem_of k e d : e ∈ dict_del k d ↔ e ∈ d ∧ e.1 ≠ k.
Proof.
  induction d as [|[k' v'] d IH]; simpl.
  - split; [by intros ?%elem_of_nil|by intros [?%elem_of_nil _]].
  - destruct (String.eqb k' k) eqn:E.
    + apply String.eqb_eq in E as ->. rewrite IH, elem_of_cons.
      split; [naive_solver|]. intros [[->|?] ?]; [done|auto].
    + apply String.eqb_neq in E. rewrite !elem_of_cons, IH.
      split; [|naive_solver]. intros [->|[? ?]]; auto.
Qed.

Lemma dict_keys_del k k' d :
  k' ∈ dict_keys (dict_del k d) ↔ k' ∈ dict_keys d ∧ k' ≠ k.
Proof.
  unfold dict_keys. rewrite !list_elem_of_fmap. split.
  - intros ([k0 v] & -> & [H ?]%dict_del_elem_of). eauto.
  - intros [([k0 v] & -> & H) ?]. exists (k0, v).
    by rewrite dict_del_elem_of.
Qed.

Lemma dict_del_NoDup k d :
  NoDup (dict_keys d) → NoDup (dict_keys (dict_del k d)).
Proof.
  induction d as [|[k' v'] d IH]; simpl; [done|].
  intros [Hk Hd]%NoDup_cons. destruct (String.eqb k' k); [auto|].
  simpl. apply NoDup_cons. split; [|auto].
  rewrite dict_keys_del. naive_solver.
Qed.

Lemma dict_set_fresh k v d :
  k ∉ dict_keys d → dict_set k v d = d ++ [(k, v)].
Proof.
  induction d as [|[k' v'] d IH]; simpl; [done|].
  intros [Hne Hk]%not_elem_of_cons.
  destruct (String.eqb k' k) eqn:E.
  - apply String.eqb_eq in E. congruence.
  - by rewrite IH.
Qed.

Lemma dict_keys_set k k' v d :
  k' ∈ dict_keys (dict_set k v d) ↔ k' = k ∨ k' ∈ dict_keys d.
Proof.
  induction d as [|[k0 v0] d IH]; simpl.
  - rewrite list_elem_of_singleton. split; [auto|].
    intros [?|?%elem_of_nil]; done.
  - destruct (String.eqb k0 k) eqn:E; simpl.
    + apply String.eqb_eq in E as ->. rewrite !elem_of_cons. naive_solver.
    + rewrite !elem_of_cons, IH. naive_solver.
Qed.

Lemma dict_set_NoDup k v d :
  NoDup (dict_keys d) → NoDup (dict_keys (dict_set k v d)).
Proof.
  induction d as [|[k0 v0] d IH]; simpl.
  - intros _. apply NoDup_singleton.
  - intros [Hk Hd]%NoDup_cons. destruct (String.eqb k0 k) eqn:E; simpl.
    + apply String.eqb_eq in E as ->. by apply NoDup_cons.
    + apply String.eqb_neq in E. apply NoDup_cons. split; [|auto].
      rewrite dict_keys_set. naive_solver.
Qed.

Lemma dict_set_Forall (P : string * json → Prop) k v d :
  P (k, v) → Forall P d → Forall P (dict_set k v d).
Proof.
  intros Hkv. induction 1 as [|[k0 v0] d H0 Hd IH]; simpl.
  - by apply Forall_singleton.
  - destruct (String.eqb k0 k); by apply Forall_cons.
Qed.
End dict_facts.

(** ** The encoder and the decoder *)


Lemma iterencode_head v : ∃ t r, iterencode v = t :: r ∧ opens_value t.
Proof.
  destruct v as [|[]| | | | |]; simpl; eexists _, _;
    (split; [reflexivity|exact I]).
Qed.

Lemma decode_items items :
  Forall decodes items → items ≠ [] →
  ∀ acc fuel rest,
    (2 * length (encode_items iterencode items) ≤ fuel)%nat →
    decode fuel (PItems acc) (encode_items iterencode items ++ rest)
    = Some (JArr (acc ++ items), rest).
Proof.
  induction 1 as [|x l Hx Hl IH]; [done|]. intros _ acc fuel rest Hfuel.
  cbn [encode_items] in *. rewrite length_app in Hfuel.
  destruct fuel as [|fuel]; [destruct l; simpl in Hfuel; lia|].
  cbn [decode]. rewrite <- app_assoc.
  destruct l as [|y l].
  - rewrite Hx by (simpl in Hfuel; lia). done.
  - rewrite Hx by (simpl in Hfuel; lia). cbn [app].
    rewrite IH; [by rewrite <- app_assoc|done|simpl in *; lia].
Qed.

Lemma decode_members members :
  Forall (fun e => decodes e.2) members → members ≠ [] →
  ∀ acc fuel rest,
    NoDup (dict_keys (acc ++ members)) →
    (2 * length (encode_members iterencode members) ≤ fuel)%nat →
    decode fuel (PMembers acc) (encode_members iterencode members ++ rest)
    = Some (JObj (acc ++ members), rest).
Proof.
  induction 1 as [|[k x] l Hx Hl IH]; [done|].
  intros _ acc fuel rest Hnd Hfuel.
  cbn [encode_members] in *. cbn [length] in Hfuel.
  rewrite length_app in Hfuel.
  destruct fuel as [|fuel]; [lia|].
  cbn [decode app]. rewrite <- app_assoc.
  assert (k ∉ dict_keys acc) as Hk.
  { unfold dict_keys in *. rewrite map_app in Hnd.
    apply NoDup_app in Hnd as (_ & Hnd & _).
    intros Hin. apply (Hnd k Hin). simpl. left. }
  destruct l as [|y l].
  - rewrite Hx by (simpl in *; lia). cbn [app]. by rewrite dict_set_fresh.
  - rewrite Hx by (simpl in *; lia). cbn [app].
    rewrite dict_set_fresh by done.
    rewrite IH; [by rewrite <- app_assoc|done| |simpl in *; lia].
    by rewrite <- app_assoc.
Qed.

Lemma decode_iterencode v : wf v → decodes v.
Proof.
  induction v as [| | | | |items IH|members IH] using json_nested_ind;
    intros Hwf fuel rest Hfuel;
    try (try destruct b; (destruct fuel; [simpl in Hfuel; lia|]);
         reflexivity).
  - inversion_clear Hwf as [| | | | |? Hall|].
    destruct fuel as [|fuel]; [simpl in Hfuel; lia|].
    destruct items as [|x items]; [reflexivity|].
    cbn [iterencode app].
    assert (decode (S fuel) PValue
              (LBracketOpen :: encode_items iterencode (x :: items) ++ rest)
            = decode fuel (PItems [])
                (encode_items iterencode (x :: items) ++ rest)) as ->.
    { cbn [encode_items]. destruct (iterencode_head x) as (t & r & -> & Ht).
      destruct t; done. }
    rewrite decode_items; [done| |done|cbn [iterencode length] in Hfuel; lia].
    apply Forall_forall. intros y Hy. rewrite Forall_forall in IH, Hall. eauto.
  - inversion_clear Hwf as [| | | | | |? Hnd Hall].
    destruct fuel as [|fuel]; [simpl in Hfuel; lia|].
    destruct members as [|[k x] members]; [reflexivity|].
    cbn [iterencode app].
    change (decode fuel (PMembers [])
              (encode_members iterencode ((k, x) :: members) ++ rest)
            = Some (JObj ((k, x) :: members), rest)).
    rewrite decode_members;
      [done| |done|done|cbn [iterencode length] in Hfuel; lia].
    apply Forall_forall. intros y Hy. rewrite Forall_forall in IH, Hall. eauto.
Qed.

(** What [json.dump] writes, [json.load] reads back. *)
Lemma json_loads_iterencode v : wf v → json_loads (iterencode v) = Some v.
Proof.
  intros Hwf. unfold json_loads, decode_fuel.
  pose proof (decode_iterencode v Hwf (S (2 * length (iterencode v))) [])
    as H.
  rewrite app_nil_r in H. rewrite H by lia. done.
Qed.

Lemma decode_wf fuel : ∀ m ts v r,
  decode fuel m ts = Some (v, r) → pmode_wf m → wf v.
Proof.
  induction fuel as [|fuel IH]; [done|]. intros m ts v r Hdec Hm.
  destruct m as [|acc|acc]; cbn [decode] in Hdec.
  - destruct ts as [|t ts]; [done|].
    destruct t; try done; try (injection Hdec as <- _; constructor).
    + assert (pmode_wf (PItems [])) as Hnil by (by apply Forall_nil_2).
      destruct ts as [|t ts]; [by eapply IH|].
      destruct t; try (eapply IH; [exact Hdec|exact Hnil]).
      injection Hdec as <- _. constructor. by apply Forall_nil_2.
    + assert (pmode_wf (PMembers [])) as Hnil.
      { split; [apply NoDup_nil_2|by apply Forall_nil_2]. }
      destruct ts as [|t ts]; [by eapply IH|].
      destruct t; try (eapply IH; [exact Hdec|exact Hnil]).
      injection Hdec as <- _. constructor;
        [apply NoDup_nil_2|by apply Forall_nil_2].
  - destruct (decode fuel PValue ts) as [[x [|t r']]|] eqn:Hx; try done.
    assert (wf x) as Hwfx by (by eapply IH).
    assert (Forall wf (acc ++ [x])) as Hacc.
    { apply Forall_app. split; [done|by apply Forall_singleton]. }
    destruct t; try done.
    + injection Hdec as <- _. by constructor.
    + by eapply IH.
  - destruct ts as [|[] [|[] ts]]; try done.
    destruct (decode fuel PValue ts) as [[x [|t r']]|] eqn:Hx; try done.
    assert (wf x) as Hwfx by (by eapply IH).
    destruct Hm as [Hnd Hall].
    assert (pmode_wf (PMembers (dict_set s x acc))) as Hacc.
    { split; [by apply dict_set_NoDup|by apply dict_set_Forall]. }
    destruct t; try done.
    + injection Hdec as <- _. destruct Hacc. by constructor.
    + by eapply IH.
Qed.

(** Every document [json.load] returns is well formed. *)
Lemma json_loads_wf ts v : json_loads ts = Some v → wf v.
Proof.
  unfold json_loads.
  destruct (decode _ PValue ts) as [[x [|t r]]|] eqn:Hx; try done.
  intros [= <-]. by eapply decode_wf.
Qed.

(** A text the decoder reads with some fuel, it reads with any fuel from
    twice the number of lexemes used up on. *)
Lemma decode_enough fuel : ∀ m ts v r,
  decode fuel m ts = Some (v, r) →
  (length r < length ts)%nat ∧
  ∀ fuel', (2 * (length ts - length r) ≤ S fuel')%nat →
    decode fuel' m ts = Some (v, r).
Proof.
  induction fuel as [|fuel IH]; [done|]. intros m ts v r Hdec.
  destruct m as [|acc|acc]; cbn [decode] in Hdec.
  - destruct ts as [|t ts]; [done|].
    destruct t; try done;
      try (injection Hdec as <- <-; split; [simpl; lia|];
           intros [|f'] Hf'; [simpl in Hf'; lia|done]).
    + destruct ts as [|t ts];
        [apply IH in Hdec as [Hlt _]; simpl in Hlt; lia|].
      destruct t;
        try (apply IH in Hdec as [Hlt Hen]; split; [simpl in *; lia|];
             intros [|f'] Hf'; [simpl in *; lia|];
             cbn [decode]; apply Hen; simpl in *; lia).
      injection Hdec as <- <-. split; [simpl; lia|].
      intros [|f'] Hf'; [simpl in Hf'; lia|done].
    + destruct ts as [|t ts];
        [apply IH in Hdec as [Hlt _]; simpl in Hlt; lia|].
      destruct t;
        try (apply IH in Hdec as [Hlt Hen]; split; [simpl in *; lia|];
             intros [|f'] Hf'; [simpl in *; lia|];
             cbn [decode]; apply Hen; simpl in *; lia).
      injection Hdec as <- <-. split; [simpl; lia|].
      intros [|f'] Hf'; [simpl in Hf'; lia|done].
  - destruct (decode fuel PValue ts) as [[x [|t r']]|] eqn:Hx; try done.
    apply IH in Hx as [Hlt1 Hen1].
    destruct t; try done.
    + injection Hdec as <- <-. split; [simpl in *; lia|].
      intros [|f'] Hf'; [simpl in *; lia|].
      cbn [decode]. rewrite Hen1 by (simpl in *; lia). done.
    + apply IH in Hdec as [Hlt2 Hen2]. split; [simpl in *; lia|].
      intros [|f'] Hf'; [simpl in *; lia|].
      cbn [decode]. rewrite Hen1 by (simpl in *; lia).
      apply Hen2. simpl in *. lia.
  - destruct ts as [|[] [|[] ts]]; try done.
    destruct (decode fuel PValue ts) as [[x [|t r']]|] eqn:Hx; try done.
    apply IH in Hx as [Hlt1 Hen1].
    destruct t; try done.
    + injection Hdec as <- <-. split; [simpl in *; lia|].
      intros [|f'] Hf'; [simpl in *; lia|].
      cbn [decode]. rewrite Hen1 by (simpl in *; lia). done.
    + apply IH in Hdec as [Hlt2 Hen2]. split; [simpl in *; lia|].
      intros [|f'] Hf'; [simpl in *; lia|].
      cbn [decode]. rewrite Hen1 by (simpl in *; lia).
      apply Hen2. simpl in *. lia.
Qed.

(** No amount of fuel reads a text that [json_loads] rejects. *)
Lemma json_loads_None ts :
  json_loads ts = None → ∀ fuel v, decode fuel PValue ts ≠ Some (v, []).
Proof.
  intros Hnone fuel v Hdec. apply decode_enough in Hdec as [_ Hen].
  unfold json_loads in Hnone. rewrite (Hen (decode_fuel ts)) in Hnone; [done|].
  unfold decode_fuel. simpl. lia.
Qed.

(** ** Computations *)

Section computations.
Context {A B : Type}.
Implicit Types (m : M A) (k : A → M B) (w : world).

Lemma bind_ok m k w a w' : m w = (Ok a, w') → (m ≫= k) w = k a w'.
Proof. intros H. unfold mbind, M_bind. by rewrite H. Qed.

Lemma bind_raise m k w e w' :
  m w = (Raise e, w') → (m ≫= k) w = (Raise e, w').
Proof. intros H. unfold mbind, M_bind. by rewrite H. Qed.
End computations.

(** ** Objects of the store *)

Lemma Forall2_elem_of_impl {X Y} (P Q : X → Y → Prop) xs ys :
  Forall2 P xs ys → (∀ x y, x ∈ xs → P x y → Q x y) → Forall2 Q xs ys.
Proof.
  induction 1 as [|x y xs ys Hxy _ IH]; intros HPQ; constructor.
  - apply HPQ; [left|done].
  - apply IH. intros x' y' Hin. apply HPQ. by right.
Qed.

(** Allocation gives every item a location of its own and leaves the
    objects that were there alone. *)
Lemma alloc_all items : ∀ w,
  ∃ ls h,
    for_each alloc items w = (Ok ls, set_heap h w) ∧
    NoDup ls ∧
    Forall2 (fun l v => h !! l = Some v) ls items ∧
    ∀ l, is_Some (heap w !! l) → (l ∉ ls) ∧ (h !! l = heap w !! l).
Proof.
  induction items as [|x items IH]; intros w.
  - exists [], (heap w). split; [by destruct w|].
    split; [apply NoDup_nil_2|]. split; [constructor|].
    intros l _. split; [apply not_elem_of_nil|done].
  - set (l := fresh (dom (heap w))).
    assert (heap w !! l = None) as Hl.
    { apply not_elem_of_dom. apply is_fresh. }
    set (w1 := set_heap (<[l := x]> (heap w)) w).
    destruct (IH w1) as (ls & h & Hrun & Hnd & Hall & Hold).
    assert (heap w1 !! l = Some x) as Hl1 by apply lookup_insert_eq.
    destruct (Hold l) as [Hnl Hhl]; [by rewrite Hl1|].
    exists (l :: ls), h. split_and!.
    + cbn [for_each].
      rewrite (bind_ok (alloc x) _ w l w1) by done.
      rewrite (bind_ok (for_each alloc items) _ w1 ls (set_heap h w1)) by done.
      done.
    + by apply NoDup_cons.
    + constructor; [by rewrite Hhl|done].
    + intros l0 Hl0.
      assert (l0 ≠ l) as Hne.
      { intros ->. rewrite Hl in Hl0. by destruct Hl0. }
      assert (heap w1 !! l0 = heap w !! l0) as Heq
        by (by apply lookup_insert_ne).
      destruct (Hold l0) as [? ?]; [by rewrite Heq|].
      split; [|congruence]. rewrite not_elem_of_cons. done.
Qed.

(** ** The staging transform *)

(** [conform_dict] on an element that is a dict. *)
Lemma conform_dict_dict w l d :
  heap w !! l = Some (JObj d) →
  AstraDBUploadStager.conform_dict l w =
    (Ok (staged_slots l d),
     set_heap (<[l := JObj (stripped d)]> (heap w)) w).
Proof.
  intros H.
  unfold AstraDBUploadStager.conform_dict, mbind, M_bind, py_pop, mret, M_ret.
  simpl. rewrite H. simpl. rewrite lookup_insert_eq. simpl.
  rewrite insert_insert_eq. unfold staged_slots, field.
  by rewrite dict_get_del_ne.
Qed.

(** [conform_dict] on anything else raises and changes nothing. *)
Lemma conform_dict_other w l :
  (∀ d, heap w !! l ≠ Some (JObj d)) →
  ∃ e, AstraDBUploadStager.conform_dict l w = (Raise e, w).
Proof.
  intros H. unfold AstraDBUploadStager.conform_dict, mbind, M_bind, py_pop.
  destruct (heap w !! l) as [[| | | | | |d]|] eqn:E; eauto.
  by destruct (H d).
Qed.

(** The loop of [run] over elements that are dicts at distinct
    locations. *)
Lemma conform_all ls ds : ∀ w,
  NoDup ls →
  Forall2 (fun l d => heap w !! l = Some (JObj d)) ls ds →
  ∃ h,
    for_each AstraDBUploadStager.conform_dict ls w
      = (Ok (zip_with staged_slots ls ds), set_heap h w) ∧
    Forall2 (fun l d => h !! l = Some (JObj (stripped d))) ls ds ∧
    ∀ l, l ∉ ls → h !! l = heap w !! l.
Proof.
  intros w Hnd Hall. revert w Hnd Hall.
  induction ls as [|l ls IH] in ds |- *; intros w Hnd Hall.
  - apply Forall2_nil_inv_l in Hall as ->. exists (heap w).
    split; [by destruct w|]. split; [constructor|done].
  - apply Forall2_cons_inv_l in Hall as (d & ds' & Hd & Hall & ->).
    apply NoDup_cons in Hnd as [Hl Hnd].
    set (w1 := set_heap (<[l := JObj (stripped d)]> (heap w)) w).
    assert (∀ l', l' ≠ l → heap w1 !! l' = heap w !! l') as Hframe.
    { intros l' Hne. by apply lookup_insert_ne. }
    destruct (IH ds' w1) as (h & Hrun & Hall' & Hold); [done| |].
    { eapply Forall2_elem_of_impl; [exact Hall|].
      intros l' d' Hin Hd'. rewrite Hframe; [done|]. by intros ->. }
    exists h. split_and!.
    + cbn [for_each zip_with].
      rewrite (bind_ok (AstraDBUploadStager.conform_dict l) _ w
                 (staged_slots l d) w1)
        by (by apply conform_dict_dict).
      by rewrite (bind_ok (for_each AstraDBUploadStager.conform_dict ls) _ w1
                    (zip_with staged_slots ls ds') (set_heap h w1)).
    + constructor; [|done]. rewrite (Hold l Hl). apply lookup_insert_eq.
    + intros l' [Hne Hl']%not_elem_of_cons.
      rewrite (Hold l' Hl'). by apply Hframe.
Qed.

(** Written out against the store the loop leaves, the dicts it returned
    are the staged records. *)
Lemma snapshot_staged h ls ds :
  Forall2 (fun l d => h !! l = Some (JObj (stripped d))) ls ds →
  map (snapshot h) (zip_with staged_slots ls ds) = map staged_of ds.
Proof.
  induction 1 as [|l d ls ds Hl _ IH]; [done|].
  cbn [zip_with map]. rewrite IH. f_equal.
  unfold snapshot, staged_slots, staged_of. simpl. by rewrite Hl.
Qed.

(** A staged record is well formed when the element was. *)
Lemma staged_of_wf d : wf (JObj d) → wf (JObj (stripped d)) ∧ wf (staged_of d).
Proof.
  intros Hwf. inversion_clear Hwf as [| | | | | |? Hnd Hall].
  assert (∀ k, wf (field k d)) as Hfield.
  { intros k. unfold field. destruct (dict_get k d) as [v|] eqn:E;
      [|constructor].
    apply dict_get_elem_of in E. rewrite Forall_forall in Hall.
    apply (Hall (k, v) E). }
  assert (wf (JObj (stripped d))) as Hs.
  { constructor; [by do 2 apply dict_del_NoDup|].
    apply Forall_forall. intros e [[He _]%dict_del_elem_of _]%dict_del_elem_of.
    rewrite Forall_forall in Hall. auto. }
  split; [done|]. constructor.
  - unfold dict_keys. simpl. apply (bool_decide_unpack _). by compute.
  - rewrite !Forall_cons, Forall_nil. simpl. auto.
Qed.

(** ** Files *)

(** Writing chunks to a file that holds [old]: the disk takes the first
    [accepted (quota w) (length chunks)] of them, and the write raises
    when that is not all. Nothing else changes. *)
Lemma write_chunks path chunks : ∀ w old,
  files w !! path = Some old →
  ∃ r w',
    for_each (fp_write path) chunks w = (r, w') ∧
    (accepted (quota w) (length chunks) = length chunks → ∃ us, r = Ok us) ∧
    ((accepted (quota w) (length chunks) < length chunks)%nat →
     r = Raise (OSError path)) ∧
    files w' =
      <[path := old ++ take (accepted (quota w) (length chunks)) chunks]>
        (files w) ∧
    heap w' = heap w ∧ trace w' = trace w.
Proof.
  induction chunks as [|c cs IH]; intros w old Hold.
  - exists (Ok []), w. split_and!; try done.
    + eauto.
    + destruct (quota w); simpl; lia.
    + rewrite take_nil, app_nil_r. by rewrite insert_id.
  - cbn [for_each]. destruct (quota w) as [[|q]|] eqn:Hq.
    + exists (Raise (OSError path)), w. split_and!; try done.
      * apply bind_raise. unfold fp_write. by rewrite Hq.
      * simpl. rewrite app_nil_r. by rewrite insert_id.
    + set (w1 := set_quota (Some q)
                   (set_files (<[path := old ++ [c]]> (files w)) w)).
      destruct (IH w1 (old ++ [c])) as (r & w' & Hrun & Hok & Hbad & Hf & Hh & Ht).
      { apply lookup_insert_eq. }
      assert (fp_write path c w = (Ok tt, w1)) as Hw.
      { unfold fp_write. rewrite Hq, Hold. done. }
      rewrite (bind_ok _ _ _ _ _ Hw).
      change (quota w1) with (Some q) in *. simpl in *.
      destruct r as [us|e].
      * exists (Ok (tt :: us)), w'.
        rewrite (bind_ok _ _ _ _ _ Hrun). split_and!; try done.
        -- eauto.
        -- intros Hlt. exfalso.
           assert (Ok us = Raise (OSError path)) as Habs
             by (apply Hbad; lia). done.
        -- rewrite Hf. unfold w1. simpl. rewrite insert_insert_eq.
           by rewrite <- app_assoc.
      * exists (Raise e), w'.
        rewrite (bind_raise _ _ _ _ _ Hrun). split_and!; try done.
        -- intros Heq. destruct Hok as [us Hus]; [lia|done].
        -- intros Hlt. apply Hbad. lia.
        -- rewrite Hf. unfold w1. simpl. rewrite insert_insert_eq.
           by rewrite <- app_assoc.
    + set (w1 := set_quota None
                   (set_files (<[path := old ++ [c]]> (files w)) w)).
      destruct (IH w1 (old ++ [c])) as (r & w' & Hrun & Hok & Hbad & Hf & Hh & Ht).
      { apply lookup_insert_eq. }
      assert (fp_write path c w = (Ok tt, w1)) as Hw.
      { unfold fp_write. rewrite Hq, Hold. done. }
      rewrite (bind_ok _ _ _ _ _ Hw).
      change (quota w1) with (@None nat) in *. simpl in *.
      destruct Hok as [us ->]; [done|].
      exists (Ok (tt :: us)), w'.
      rewrite (bind_ok _ _ _ _ _ Hrun). split_and!; try done.
      * eauto.
      * lia.
      * rewrite Hf. unfold w1. simpl. rewrite insert_insert_eq.
        by rewrite <- app_assoc.
Qed.

(** ** The stager's run *)

Section stager_run_facts.
Variables (w : world) (inp dir name : string).

Local Abbreviation out := (path_join dir (name +:+ ".json")).

(** A file that is not JSON: the run stops at [json.load], with the
    world as it was. *)
Lemma stager_run_malformed text :
  files w !! inp = Some text → json_loads text = None →
  AstraDBUploadStager.run inp dir name w = (Raise JSONDecodeError, w).
Proof.
  intros Hf Hl. unfold AstraDBUploadStager.run. apply bind_raise.
  unfold json_load. by rewrite Hf, Hl.
Qed.

(** An array of dicts: the run gets as far as the write; the output
    file holds what the disk took of the staged array's text. *)
Lemma stager_run_dicts text elems :
  files w !! inp = Some text →
  json_loads text = Some (JArr (map JObj elems)) →
  unwritable w out = false →
  let full := iterencode (JArr (map staged_of elems)) in
  let n := accepted (quota w) (length full) in
  ∃ r w',
    AstraDBUploadStager.run inp dir name w = (r, w') ∧
    (n = length full → r = Ok out) ∧
    ((n < length full)%nat → r = Raise (OSError out)) ∧
    files w' = <[out := take n full]> (files w).
Proof.
  intros Hf Hl Hw full n. unfold AstraDBUploadStager.run.
  assert (json_load inp w = (Ok (JArr (map JObj elems)), w)) as H1.
  { unfold json_load. by rewrite Hf, Hl. }
  rewrite (bind_ok _ _ _ _ _ H1).
  destruct (alloc_all (map JObj elems) w) as (ls & h & Hal & Hnd & Hall & _).
  assert (py_iter (JArr (map JObj elems)) w = (Ok ls, set_heap h w)) as H2.
  { unfold py_iter. cbn [iter_items].
    by rewrite (bind_ok (mret (map JObj elems)) _ w (map JObj elems) w). }
  rewrite (bind_ok _ _ _ _ _ H2).
  destruct (conform_all ls elems (set_heap h w)) as (h' & Hc & Hall' & _);
    [done|by apply Forall2_fmap_r in Hall|].
  rewrite (bind_ok _ _ _ _ _ Hc).
  set (w2 := set_heap h' (set_heap h w)).
  set (w3 := set_files (<[out := []]> (files w2)) w2).
  assert (open_w out w2 = (Ok out, w3)) as H3.
  { unfold open_w. change (unwritable w2 out) with (unwritable w out).
    by rewrite Hw. }
  rewrite (bind_ok _ _ _ _ _ H3).
  destruct (write_chunks out full w3 []) as
    (r & w' & Hrun & Hok & Hbad & Hfiles & _); [apply lookup_insert_eq|].
  change (quota w3) with (quota w) in *. fold n in Hok, Hbad, Hfiles.
  assert (files w' = <[out := take n full]> (files w)) as Hfiles'.
  { rewrite Hfiles. unfold w3, w2. simpl. by rewrite insert_insert_eq. }
  assert (for_each (fp_write out)
            (iterencode
               (JArr (map (snapshot (heap w3))
                        (zip_with staged_slots ls elems)))) w3
          = (r, w')) as Hrun'.
  { change (heap w3) with h'. by rewrite (snapshot_staged h' ls elems). }
  destruct r as [us|e].
  - assert (json_dump (zip_with staged_slots ls elems) out w3
            = (Ok tt, w')) as Hd.
    { unfold json_dump. by rewrite (bind_ok _ _ _ _ _ Hrun'). }
    exists (Ok out), w'. split_and!.
    + by rewrite (bind_ok _ _ _ _ _ Hd).
    + done.
    + intros Hlt. by specialize (Hbad Hlt).
    + done.
  - assert (json_dump (zip_with staged_slots ls elems) out w3
            = (Raise e, w')) as Hd.
    { unfold json_dump. by rewrite (bind_raise _ _ _ _ _ Hrun'). }
    exists (Raise e), w'. split_and!.
    + by rewrite (bind_raise _ _ _ _ _ Hd).
    + intros Heq. by destruct (Hok Heq).
    + intros Hlt. specialize (Hbad Hlt). by injection Hbad as ->.
    + done.
Qed.
End stager_run_facts.

(** With room on the disk the run succeeds, and the output file reads
    back as the array of staged records. *)
Lemma stager_run_complete w inp dir name text elems :
  files w !! inp = Some text →
  json_loads text = Some (JArr (map JObj elems)) →
  unwritable w (path_join dir (name +:+ ".json")) = false →
  (∀ q, quota w = Some q →
        (length (iterencode (JArr (map staged_of elems))) ≤ q)%nat) →
  ∃ w',
    AstraDBUploadStager.run inp dir name w
      = (Ok (path_join dir (name +:+ ".json")), w') ∧
    files w' !! path_join dir (name +:+ ".json")
      = Some (iterencode (JArr (map staged_of elems))) ∧
    json_loads (iterencode (JArr (map staged_of elems)))
      = Some (JArr (map staged_of elems)).
Proof.
  intros Hf Hl Hw Hq.
  destruct (stager_run_dicts w inp dir name text elems Hf Hl Hw)
    as (r & w' & Hrun & Hok & _ & Hfiles).
  set (full := iterencode (JArr (map staged_of elems))) in *.
  assert (accepted (quota w) (length full) = length full) as Hn.
  { destruct (quota w) as [q|] eqn:E; [|done].
    specialize (Hq q eq_refl). unfold accepted. lia. }
  rewrite Hn in *. rewrite firstn_all in Hfiles.
  exists w'. split_and!.
  - by rewrite Hrun, Hok.
  - rewrite Hfiles. apply lookup_insert_eq.
  - apply json_loads_iterencode. constructor.
    apply json_loads_wf in Hl. inversion_clear Hl as [| | | | |? Hall|].
    rewrite Forall_forall in Hall. apply Forall_forall.
    intros x (d & -> & Hd)%list_elem_of_fmap.
    apply staged_of_wf, Hall. by apply list_elem_of_fmap_2.
Qed.

(** ** Claims about the stager *)

(** C1. For an input file holding a JSON array of element dicts, [run]
    writes an array with one staged record per element, in the same
    order: the output has the input's length and its i-th record is the
    one staged from the i-th element. *)
Theorem stager_run_keeps_count_and_order
    (w : world) (inp dir name : string) (text : list lexeme)
    (elems : list dict) :
  files w !! inp = Some text →
  json_loads text = Some (JArr (map JObj elems)) →
  unwritable w (path_join dir (name +:+ ".json")) = false →
  (∀ q, quota w = Some q →
        (length (iterencode (JArr (map staged_of elems))) ≤ q)%nat) →
  ∃ w' staged,
    AstraDBUploadStager.run inp dir name w
      = (Ok (path_join dir (name +:+ ".json")), w') ∧
    files w' !! path_join dir (name +:+ ".json") ≫= json_loads
      = Some (JArr staged) ∧
    length staged = length elems ∧
    ∀ i d, elems !! i = Some d → staged !! i = Some (staged_of d).
Proof.
  intros Hf Hl Hw Hq.
  destruct (stager_run_complete w inp dir name text elems Hf Hl Hw Hq)
    as (w' & Hrun & Hfile & Hback).
  exists w', (map staged_of elems). split_and!.
  - done.
  - rewrite Hfile. exact Hback.
  - apply length_map.
  - intros i d Hi. change (map staged_of elems) with (staged_of <$> elems).
    by rewrite list_lookup_fmap, Hi.
Qed.

Lemma stager_run_keeps_count_and_order_witness :
  ∃ w',
    AstraDBUploadStager.run "elements.json" "out" "staged"
      (sample_world willing_store sample_three_file None)
    = (Ok "out/staged.json", w') ∧
    files w' !! "out/staged.json" ≫= json_loads
      = Some (JArr sample_three_staged).
Proof.
  destruct (stager_run_keeps_count_and_order
              (sample_world willing_store sample_three_file None)
              "elements.json" "out" "staged"
              (iterencode (JArr (map JObj sample_three_elements)))
              sample_three_elements)
    as (w' & staged & Hrun & Hfile & Hlen & Hnth).
  - reflexivity.
  - reflexivity.
  - reflexivity.
  - intros q Hq. discriminate Hq.
  - destruct staged as [|s0 [|s1 [|s2 [|s3 staged]]]]; try discriminate Hlen.
    pose proof (Hnth 0%nat _ eq_refl) as H0.
    pose proof (Hnth 1%nat _ eq_refl) as H1.
    pose proof (Hnth 2%nat _ eq_refl) as H2.
    injection H0 as ->. injection H1 as ->. injection H2 as ->.
    exists w'. split; [exact Hrun|exact Hfile].
Defined.

(** C2, as stated, fails: the record staged from the sample element has
    no key ["vector"]; its vector is under ["$vector"]. *)
Lemma conform_dict_has_no_vector_key :
  ∃ rec w' out,
    AstraDBUploadStager.conform_dict 1%positive
      (sample_store (JObj sample_element)) = (Ok rec, w') ∧
    snapshot (heap w') rec = JObj out ∧
    dict_keys out ≠ ["vector"; "content"; "metadata"] ∧
    dict_get "vector" out = None.
Proof.
  eexists _, _, _. split_and!.
  - apply conform_dict_dict. reflexivity.
  - vm_compute. reflexivity.
  - discriminate.
  - reflexivity.
Qed.

(** C2, amended. For every element dict, the record [conform_dict]
    returns has, as it is written out, exactly the three keys
    ["$vector"], ["content"] and ["metadata"], and its metadata mapping
    has neither the [embeddings] nor the [text] key. *)
Theorem conform_dict_three_keys (w : world) (l : loc) (d : dict) :
  heap w !! l = Some (JObj d) →
  ∃ rec w' out meta,
    AstraDBUploadStager.conform_dict l w = (Ok rec, w') ∧
    snapshot (heap w') rec = JObj out ∧
    dict_keys out = ["$vector"; "content"; "metadata"] ∧
    dict_get "metadata" out = Some (JObj meta) ∧
    ("embeddings" ∉ dict_keys meta) ∧
    ("text" ∉ dict_keys meta).
Proof.
  intros Hl. eexists _, _, _, (stripped d). split_and!.
  - by apply conform_dict_dict.
  - unfold snapshot, staged_slots. cbn [map fst snd resolve heap set_heap].
    rewrite lookup_insert_eq. reflexivity.
  - reflexivity.
  - reflexivity.
  - unfold stripped. rewrite !dict_keys_del. naive_solver.
  - unfold stripped. rewrite !dict_keys_del. naive_solver.
Qed.

Lemma conform_dict_three_keys_witness :
  ∃ rec w' out meta,
    AstraDBUploadStager.conform_dict 1%positive
      (sample_store (JObj sample_element))
    = (Ok rec, w') ∧
    snapshot (heap w') rec = JObj out ∧
    dict_keys out = ["$vector"; "content"; "metadata"] ∧
    dict_get "metadata" out = Some (JObj meta) ∧
    ("embeddings" ∉ dict_keys meta) ∧
    ("text" ∉ dict_keys meta).
Proof.
  apply (conform_dict_three_keys _ 1%positive sample_element).
  reflexivity.
Defined.

(** C3. For an element dict without the [embeddings] key, or without the
    [text] key, [conform_dict] raises nothing and the matching field of
    the staged record is [None] (JSON [null]). *)
Theorem conform_dict_missing_keys (w : world) (l : loc) (d : dict) :
  heap w !! l = Some (JObj d) →
  ∃ rec w' out,
    AstraDBUploadStager.conform_dict l w = (Ok rec, w') ∧
    snapshot (heap w') rec = JObj out ∧
    ("embeddings" ∉ dict_keys d → dict_get "$vector" out = Some JNull) ∧
    ("text" ∉ dict_keys d → dict_get "content" out = Some JNull).
Proof.
  intros Hl. eexists _, _, _. split_and!.
  - by apply conform_dict_dict.
  - unfold snapshot, staged_slots. cbn [map fst snd resolve heap set_heap].
    rewrite lookup_insert_eq. reflexivity.
  - intros Hk%dict_get_None. cbn. unfold field. by rewrite Hk.
  - intros Hk%dict_get_None. cbn. unfold field. by rewrite Hk.
Qed.

Lemma conform_dict_missing_keys_witness :
  ∃ rec w' out,
    AstraDBUploadStager.conform_dict 1%positive
      (sample_store (JObj [("source", JStr "a")]))
    = (Ok rec, w') ∧
    snapshot (heap w') rec = JObj out ∧
    dict_get "$vector" out = Some JNull ∧
    dict_get "content" out = Some JNull.
Proof.
  destruct (conform_dict_missing_keys
              (sample_store (JObj [("source", JStr "a")]))
              1%positive [("source", JStr "a")] eq_refl)
    as (rec & w' & out & Hrun & Hsnap & Hv & Hc).
  exists rec, w', out. split_and!; [done|done| |].
  - apply Hv. apply (bool_decide_unpack _). by vm_compute.
  - apply Hc. apply (bool_decide_unpack _). by vm_compute.
Defined.

(** C10. [conform_dict] changes the dict it is given, in place: after the
    call the object at the caller's location has lost the [embeddings]
    and [text] keys and kept every other entry, it is that very object
    the record's metadata slot refers to, and no other object has
    changed. When one of the two keys was there, the caller's dict is
    not what it was. *)
Theorem conform_dict_mutates_input (w : world) (l : loc) (d : dict) :
  heap w !! l = Some (JObj d) →
  ∃ rec w' d',
    AstraDBUploadStager.conform_dict l w = (Ok rec, w') ∧
    heap w' !! l = Some (JObj d') ∧
    dict_get "embeddings" d' = None ∧
    dict_get "text" d' = None ∧
    (∀ k, k ≠ "embeddings" → k ≠ "text" → dict_get k d' = dict_get k d) ∧
    rec !! 2%nat = Some ("metadata", Ref l) ∧
    (∀ l', l' ≠ l → heap w' !! l' = heap w !! l') ∧
    ("embeddings" ∈ dict_keys d ∨ "text" ∈ dict_keys d →
     heap w' !! l ≠ heap w !! l).
Proof.
  intros Hl. eexists (staged_slots l d), _, (stripped d). split_and!.
  - by apply conform_dict_dict.
  - apply lookup_insert_eq.
  - unfold stripped. rewrite dict_get_del_ne by done. apply dict_get_del_eq.
  - apply dict_get_del_eq.
  - intros k H1 H2. unfold stripped. by rewrite !dict_get_del_ne.
  - reflexivity.
  - intros l' Hne. by apply lookup_insert_ne.
  - intros Hk. cbn [heap set_heap]. rewrite lookup_insert_eq, Hl.
    intros [= Heq].
    assert (("embeddings" ∉ dict_keys (stripped d)) ∧
            ("text" ∉ dict_keys (stripped d))) as [H1 H2].
    { unfold stripped. rewrite !dict_keys_del. naive_solver. }
    rewrite Heq in H1, H2. by destruct Hk.
Qed.

Lemma conform_dict_mutates_input_witness :
  ∃ rec w' d',
    AstraDBUploadStager.conform_dict 1%positive
      (sample_store (JObj sample_element))
    = (Ok rec, w') ∧
    heap w' !! 1%positive = Some (JObj d') ∧
    dict_get "embeddings" d' = None ∧
    dict_get "text" d' = None ∧
    rec !! 2%nat = Some ("metadata", Ref 1%positive) ∧
    heap w' !! 1%positive ≠ Some (JObj sample_element).
Proof.
  destruct (conform_dict_mutates_input
              (sample_store (JObj sample_element))
              1%positive sample_element eq_refl)
    as (rec & w' & d' & Hrun & Hl & He & Ht & _ & Hm & _ & Hne).
  exists rec, w', d'. split_and!; try done.
  apply Hne. left. apply (bool_decide_unpack _). by vm_compute.
Defined.

(** C8, as stated, fails: staging the sample input gives a record whose
    vector is under the key ["$vector"]; it has no key ["vector"], so the
    output is not the array with that key. *)
Lemma stager_run_sample_has_no_vector_key :
  ∃ rec,
    files (AstraDBUploadStager.run "elements.json" "out" "staged"
             (sample_world willing_store sample_elements_file None)).2
      !! "out/staged.json" ≫= json_loads = Some (JArr [JObj rec]) ∧
    dict_get "vector" rec = None ∧
    JArr [JObj rec] ≠ JArr [sample_staged_plain_key].
Proof.
  eexists. split_and!.
  - vm_compute. reflexivity.
  - reflexivity.
  - discriminate.
Qed.

(** C8, amended. Staging the single-element input
    [[{"text":"hi","embeddings":[0.1,0.2],"source":"a"}]] produces exactly
    [[{"$vector":[0.1,0.2],"content":"hi","metadata":{"source":"a"}}]]. *)
Theorem stager_run_sample
    (w : world) (inp dir name : string) (text : list lexeme) :
  files w !! inp = Some text →
  json_loads text = Some (JArr [JObj sample_element]) →
  unwritable w (path_join dir (name +:+ ".json")) = false →
  quota w = None →
  ∃ w',
    AstraDBUploadStager.run inp dir name w
      = (Ok (path_join dir (name +:+ ".json")), w') ∧
    files w' !! path_join dir (name +:+ ".json") ≫= json_loads
      = Some (JArr [sample_staged]).
Proof.
  intros Hf Hl Hw Hq.
  destruct (stager_run_complete w inp dir name text [sample_element])
    as (w' & Hrun & Hfile & Hback); [done|done|done| |].
  { intros q. by rewrite Hq. }
  exists w'. split; [done|]. rewrite Hfile. exact Hback.
Qed.

Lemma stager_run_sample_witness :
  ∃ w',
    AstraDBUploadStager.run "elements.json" "out" "staged"
      (sample_world willing_store sample_elements_file None)
    = (Ok "out/staged.json", w') ∧
    files w' !! "out/staged.json" ≫= json_loads = Some (JArr [sample_staged]).
Proof.
  apply (stager_run_sample
           (sample_world willing_store sample_elements_file None)
           "elements.json" "out" "staged"
           (iterencode (JArr [JObj sample_element])));
    reflexivity.
Defined.

(** C7, as stated, fails: when the disk takes only five lexemes, the run
    raises and the output path is left holding the first five lexemes of
    the staged array, which is not a JSON document. *)
Lemma stager_run_leaves_truncated_output :
  let r := AstraDBUploadStager.run "elements.json" "out" "staged"
             (sample_world willing_store sample_elements_file (Some 5%nat)) in
  r.1 = Raise (OSError "out/staged.json") ∧
  files r.2 !! "out/staged.json"
    = Some [LBracketOpen; LBraceOpen; LString "$vector"; LColon;
            LBracketOpen] ∧
  [LBracketOpen; LBraceOpen; LString "$vector"; LColon; LBracketOpen]
    = take 5 (iterencode (JArr [sample_staged])) ∧
  json_loads [LBracketOpen; LBraceOpen; LString "$vector"; LColon;
              LBracketOpen] = None.
Proof. vm_compute. done. Qed.

(** C7, amended. [run] writes the output file in place. If the input is
    not valid JSON, the run fails at [json.load], before the output file
    is opened, and the world is as it was. If the write is cut short,
    the run fails and the output path holds the part of the staged
    array's text written so far. *)
Theorem stager_run_failure_effects
    (w : world) (inp dir name : string) (text : list lexeme) :
  files w !! inp = Some text →
  (json_loads text = None →
   AstraDBUploadStager.run inp dir name w = (Raise JSONDecodeError, w)) ∧
  (∀ elems q,
     json_loads text = Some (JArr (map JObj elems)) →
     unwritable w (path_join dir (name +:+ ".json")) = false →
     quota w = Some q →
     (q < length (iterencode (JArr (map staged_of elems))))%nat →
     ∃ w',
       AstraDBUploadStager.run inp dir name w
         = (Raise (OSError (path_join dir (name +:+ ".json"))), w') ∧
       files w' !! path_join dir (name +:+ ".json")
         = Some (take q (iterencode (JArr (map staged_of elems))))).
Proof.
  intros Hf. split.
  - intros Hl. by apply stager_run_malformed with text.
  - intros elems q Hl Hw Hq Hlt.
    destruct (stager_run_dicts w inp dir name text elems Hf Hl Hw)
      as (r & w' & Hrun & _ & Hbad & Hfiles).
    rewrite Hq in Hbad, Hfiles. unfold accepted in Hbad, Hfiles.
    rewrite Nat.min_l in Hbad, Hfiles by lia.
    exists w'. split.
    + by rewrite Hrun, Hbad.
    + rewrite Hfiles. apply lookup_insert_eq.
Qed.

Lemma stager_run_failure_effects_witness :
  (AstraDBUploadStager.run "bad.json" "out" "staged"
     (sample_world willing_store {[ "bad.json" := [LBracketOpen] ]} None)
   = (Raise JSONDecodeError,
      sample_world willing_store {[ "bad.json" := [LBracketOpen] ]} None)) ∧
  (∃ w',
     AstraDBUploadStager.run "elements.json" "out" "staged"
       (sample_world willing_store sample_elements_file (Some 5%nat))
     = (Raise (OSError "out/staged.json"), w') ∧
     files w' !! "out/staged.json"
       = Some (take 5 (iterencode (JArr [sample_staged])))).
Proof.
  split.
  - refine (proj1 (stager_run_failure_effects
                     (sample_world willing_store
                        {[ "bad.json" := [LBracketOpen] ]} None)
                     "bad.json" "out" "staged" [LBracketOpen] _) _);
      reflexivity.
  - refine (proj2 (stager_run_failure_effects
                     (sample_world willing_store sample_elements_file
                        (Some 5%nat))
                     "elements.json" "out" "staged"
                     (iterencode (JArr [JObj sample_element])) _)
              [sample_element] 5%nat _ _ _ _).
    + reflexivity.
    + reflexivity.
    + reflexivity.
    + reflexivity.
    + vm_compute. lia.
Defined.

(** ** The uploader *)

(** Reading the staged files changes nothing; when each holds an array,
    the result is their concatenation, in the order given. *)
Lemma load_contents_world contents : ∀ acc w r w',
  load_contents contents acc w = (r, w') → w' = w.
Proof.
  induction contents as [|c cs IH]; intros acc w r w'; cbn [load_contents].
  - by intros [= _ <-].
  - unfold mbind, M_bind, json_load.
    destruct (files w !! path c) as [text|]; [|by intros [= _ <-]].
    destruct (json_loads text) as [v|]; [|by intros [= _ <-]].
    destruct v; cbn [iter_items]; try (by intros [= _ <-]); apply IH.
Qed.

Lemma load_contents_arrays contents staged : ∀ w acc,
  holds_arrays w contents staged →
  load_contents contents acc w = (Ok (acc ++ concat staged), w).
Proof.
  intros w acc H. revert acc.
  induction H as [|c items cs staged (text & Hf & Hl) _ IH]; intros acc.
  - cbn. by rewrite app_nil_r.
  - cbn [load_contents concat].
    assert (json_load (path c) w = (Ok (JArr items), w)) as H1.
    { unfold json_load. by rewrite Hf, Hl. }
    rewrite (bind_ok _ _ _ _ _ H1). cbn [iter_items].
    rewrite (bind_ok (mret items) _ w items w) by done.
    by rewrite IH, app_assoc.
Qed.

(** The options [get_collection] builds, by cases on the policy. *)
Lemma creation_options_eq c :
  (if truthy (requested_indexing_policy c)
   then Some [("indexing", JObj (default [] (requested_indexing_policy c)))]
   else None) = creation_options c.
Proof.
  unfold creation_options.
  by destruct (requested_indexing_policy c) as [[|e p]|].
Qed.

(** [get_collection], step by step. *)
Lemma get_collection_eval self w :
  AstraDBUploader.get_collection self w =
    if astrapy_installed (remote w) then
      (if create_collection_fails (remote w)
            (collection_name (upload_config self))
            (embedding_dimension (upload_config self))
            (creation_options (upload_config self))
       then Raise (AstraError "create_collection")
       else Ok {| handle_name := collection_name (upload_config self) |},
       set_trace (trace w ++ provisioning_events (remote w) self) w)
    else (Raise (ImportError "astrapy"), w).
Proof.
  unfold AstraDBUploader.get_collection, mbind, M_bind, requires_astrapy, AstraDB,
    create_collection.
  destruct (astrapy_installed (remote w)); [|done].
  rewrite creation_options_eq.
  unfold provisioning_events, emit, set_trace. cbn.
  rewrite <- app_assoc.
  by destruct (create_collection_fails _ _ _ _).
Qed.

Lemma insert_calls_app t1 t2 :
  insert_calls (t1 ++ t2) = insert_calls t1 ++ insert_calls t2.
Proof. apply omap_app. Qed.

(** The loop over the chunks, when the store takes every one. *)
Lemma insert_all coll chunks : ∀ w,
  (∀ n c, insert_many_fails (remote w) n c = false) →
  ∃ us,
    for_each (insert_many coll) chunks w =
      (Ok us,
       set_trace (trace w ++ map (EvInsertMany (handle_name coll)) chunks) w).
Proof.
  induction chunks as [|c cs IH]; intros w Hok.
  - exists []. cbn. rewrite app_nil_r. by destruct w.
  - set (w1 := emit (EvInsertMany (handle_name coll) c) w).
    assert (insert_many coll c w = (Ok tt, w1)) as H1.
    { unfold insert_many. by rewrite Hok. }
    destruct (IH w1 Hok) as [us Hus]. exists (tt :: us).
    cbn [for_each]. rewrite (bind_ok _ _ _ _ _ H1).
    rewrite (bind_ok _ _ _ _ _ Hus). unfold w1, emit, set_trace. cbn.
    by rewrite <- app_assoc.
Qed.

(** ** Batches *)

Section batches_facts.
Context {A : Type}.
Implicit Types (l : list A) (n fuel i : nat).

(** The chunks, end to end, are the sequence. *)
Lemma batches_concat fuel : ∀ l n,
  (0 < n)%nat → (length l ≤ fuel)%nat → concat (batches fuel l n) = l.
Proof.
  induction fuel as [|fuel IH]; intros l n Hn Hlen.
  - destruct l; [done|simpl in Hlen; lia].
  - cbn [batches]. destruct (take n l) as [|x c] eqn:E.
    + apply take_nil_inv in E as [->| ->]; [lia|done].
    + cbn [concat]. rewrite IH; [|done|rewrite length_drop; lia].
      rewrite <- E. apply take_drop.
Qed.

(** The i-th chunk is the [n] items from position [i * n] on; there is
    an i-th chunk as long as that position is within the sequence. *)
Lemma batches_lookup fuel : ∀ l n i,
  (0 < n)%nat → (length l ≤ fuel)%nat →
  batches fuel l n !! i =
    if decide (i * n < length l)%nat
    then Some (take n (drop (i * n) l)) else None.
Proof.
  induction fuel as [|fuel IH]; intros l n i Hn Hlen.
  - destruct l; [|simpl in Hlen; lia]. cbn.
    case_decide; [simpl in *; lia|done].
  - cbn [batches]. destruct (take n l) as [|x c] eqn:E.
    + apply take_nil_inv in E as [->| ->]; [lia|]. cbn.
      case_decide; [simpl in *; lia|done].
    + assert (0 < length l)%nat as Hpos.
      { destruct l; [by rewrite take_nil in E|simpl; lia]. }
      rewrite <- E. destruct i as [|i]; cbn [lookup list_lookup].
      * rewrite decide_True by (simpl; lia). done.
      * rewrite IH by (rewrite ?length_drop; lia).
        rewrite length_drop, drop_drop.
        replace (n + i * n)%nat with (S i * n)%nat by lia.
        repeat case_decide; try done; lia.
Qed.

Lemma batches_length_lt fuel l n i :
  (0 < n)%nat → (length l ≤ fuel)%nat →
  (i < length (batches fuel l n))%nat ↔ (i * n < length l)%nat.
Proof.
  intros Hn Hlen. rewrite <- lookup_lt_is_Some, batches_lookup by done.
  case_decide; split; try done; try (by eauto); by intros [? ?].
Qed.
End batches_facts.

(** What [batch_generator] yields for a positive batch size. *)
Lemma batch_generator_partition {A} (records : list A) (batch_size : Z) :
  0 < batch_size →
  concat (batch_generator records batch_size) = records ∧
  ∀ i c, batch_generator records batch_size !! i = Some c →
    c = take (Z.to_nat batch_size) (drop (i * Z.to_nat batch_size) records) ∧
    (0 < length c ≤ Z.to_nat batch_size)%nat ∧
    ((S i < length (batch_generator records batch_size))%nat →
     length c = Z.to_nat batch_size).
Proof.
  intros Hpos. unfold batch_generator.
  set (n := Z.to_nat batch_size). assert (0 < n)%nat as Hn by lia.
  split; [by apply batches_concat|]. intros i c Hc.
  pose proof Hc as Hc'. rewrite batches_lookup in Hc' by done.
  case_decide as Hi; [|done]. injection Hc' as <-. split; [done|].
  rewrite length_take, length_drop. split; [lia|].
  intros Hlt%batches_length_lt; [|done|done]. lia.
Qed.

Lemma batch_generator_45_by_20 {A} (records : list A) :
  length records = 45%nat →
  map length (batch_generator records 20) = [20; 20; 5]%nat.
Proof.
  intros Hlen. apply list_eq. intros i. unfold batch_generator.
  change (map length ?l) with (length <$> l).
  rewrite list_lookup_fmap, batches_lookup by (rewrite ?Hlen; lia).
  rewrite Hlen. destruct i as [|[|[|i]]]; case_decide; try lia; cbn;
    try done; rewrite length_take, length_drop, Hlen; f_equal; lia.
Qed.

Lemma insert_calls_inserts name chunks :
  insert_calls (map (EvInsertMany name) chunks) = chunks.
Proof.
  induction chunks as [|c cs IH]; [done|].
  change (c :: insert_calls (map (EvInsertMany name) cs) = c :: cs).
  by rewrite IH.
Qed.

(** The run when the staged files hold arrays, the collection is
    provisioned and the store takes every chunk. *)
Lemma uploader_run_ok w self contents staged :
  holds_arrays w contents staged →
  provisioning_fails (remote w) self = false →
  (∀ n c, insert_many_fails (remote w) n c = false) →
  ∃ w',
    AstraDBUploader.run self contents w = (Ok tt, w') ∧
    trace w' =
      trace w ++
      EvLogInfo (length (concat staged)) (collection_name (upload_config self))
      :: provisioning_events (remote w) self ++
      map (EvInsertMany (collection_name (upload_config self)))
        (batch_generator (concat staged) (batch_size (upload_config self))).
Proof.
  intros Hfiles Hprov Hins. unfold AstraDBUploader.run.
  rewrite (bind_ok _ _ _ _ _ (load_contents_arrays _ _ w [] Hfiles)).
  cbn [app].
  set (w1 := emit (EvLogInfo (length (concat staged))
                     (collection_name (upload_config self))) w).
  rewrite (bind_ok (log_info _ _) _ w tt w1) by done.
  unfold provisioning_fails in Hprov.
  apply orb_false_iff in Hprov as [Hinst%negb_false_iff Hcreate].
  pose proof (get_collection_eval self w1) as Hget.
  change (remote w1) with (remote w) in Hget.
  rewrite Hinst, Hcreate in Hget.
  rewrite (bind_ok _ _ _ _ _ Hget).
  set (w2 := set_trace (trace w1 ++ provisioning_events (remote w) self) w1).
  destruct (insert_all
              {| handle_name := collection_name (upload_config self) |}
              (batch_generator (concat staged)
                 (batch_size (upload_config self))) w2 Hins) as [us Hus].
  rewrite (bind_ok _ _ _ _ _ Hus).
  eexists. split; [reflexivity|]. cbn.
  by rewrite <- !app_assoc.
Qed.

(** ** Claims about the uploader *)

(** C4. When the staged files hold arrays, the collection is provisioned,
    the store takes every chunk and the batch size is positive, [run]
    makes one [insert_many] call per chunk, in order, where the chunks
    cut the concatenated records into consecutive pieces: the i-th chunk
    is the [batch_size] records from position [i * batch_size] on, every
    chunk but the last has [batch_size] records and the last has between
    one and [batch_size]. With 45 records and a batch size of 20 the
    calls have sizes 20, 20 and 5. *)
Theorem uploader_run_batches
    (w : world) (self : AstraDBUploader) (contents : list UploadContent)
    (staged : list (list json)) :
  holds_arrays w contents staged →
  provisioning_fails (remote w) self = false →
  (∀ n c, insert_many_fails (remote w) n c = false) →
  0 < batch_size (upload_config self) →
  ∃ w' chunks,
    AstraDBUploader.run self contents w = (Ok tt, w') ∧
    insert_calls (trace w') = insert_calls (trace w) ++ chunks ∧
    concat chunks = concat staged ∧
    (∀ i c, chunks !! i = Some c →
       c = take (Z.to_nat (batch_size (upload_config self)))
             (drop (i * Z.to_nat (batch_size (upload_config self)))
                (concat staged)) ∧
       (0 < length c ≤ Z.to_nat (batch_size (upload_config self)))%nat ∧
       ((S i < length chunks)%nat →
        length c = Z.to_nat (batch_size (upload_config self)))) ∧
    (length (concat staged) = 45%nat →
     batch_size (upload_config self) = 20 →
     map length chunks = [20; 20; 5]%nat).
Proof.
  intros Hfiles Hprov Hins Hpos.
  destruct (uploader_run_ok w self contents staged Hfiles Hprov Hins)
    as (w' & Hrun & Htrace).
  destruct (batch_generator_partition (concat staged)
              (batch_size (upload_config self)) Hpos) as [Hcat Hchunks].
  exists w', (batch_generator (concat staged)
                (batch_size (upload_config self))).
  split_and!; try done.
  - rewrite Htrace, insert_calls_app. f_equal.
    change (EvLogInfo ?n ?c :: ?t) with ([EvLogInfo n c] ++ t).
    by rewrite !insert_calls_app, insert_calls_inserts.
  - intros Hlen ->. by apply batch_generator_45_by_20.
Qed.

Lemma uploader_run_batches_witness :
  ∃ w' chunks,
    AstraDBUploader.run (sample_uploader 1536 None 20) sample_contents
      (sample_world willing_store sample_staged_files None) = (Ok tt, w') ∧
    insert_calls (trace w') = chunks ∧
    concat chunks = sample_records 0 45 ∧
    map length chunks = [20; 20; 5]%nat.
Proof.
  destruct (uploader_run_batches
              (sample_world willing_store sample_staged_files None)
              (sample_uploader 1536 None 20) sample_contents
              [sample_records 0 30; sample_records 30 15])
    as (w' & chunks & Hrun & Hcalls & Hcat & _ & Hsizes).
  - repeat constructor; eexists; split; vm_compute; reflexivity.
  - reflexivity.
  - reflexivity.
  - reflexivity.
  - exists w', chunks. split_and!; try done. by apply Hsizes.
Defined.

(** C9. If [get_collection] fails, [run] fails too and makes no
    [insert_many] call: the calls recorded after the run are those
    recorded before it. *)
Theorem uploader_run_no_insert_without_collection
    (w : world) (self : AstraDBUploader) (contents : list UploadContent) :
  (∃ e, (AstraDBUploader.get_collection self w).1 = Raise e) →
  ∃ e w',
    AstraDBUploader.run self contents w = (Raise e, w') ∧
    insert_calls (trace w') = insert_calls (trace w).
Proof.
  intros (e0 & Hfail). unfold AstraDBUploader.run.
  destruct (load_contents contents [] w) as [[records|e] w1] eqn:Hload;
    pose proof (load_contents_world _ _ _ _ _ Hload) as ->.
  2: { exists e, w. by rewrite (bind_raise _ _ _ _ _ Hload). }
  rewrite (bind_ok _ _ _ _ _ Hload).
  set (w1 := emit (EvLogInfo (length records)
                     (collection_name (upload_config self))) w).
  rewrite (bind_ok (log_info _ _) _ w tt w1) by done.
  rewrite get_collection_eval in Hfail.
  pose proof (get_collection_eval self w1) as Hget.
  change (remote w1) with (remote w) in Hget.
  destruct (astrapy_installed (remote w)).
  - destruct (create_collection_fails _ _ _ _); [|done].
    eexists _, _. rewrite (bind_raise _ _ _ _ _ Hget). split; [done|].
    cbn. by rewrite !insert_calls_app, !app_nil_r.
  - eexists _, _. rewrite (bind_raise _ _ _ _ _ Hget). split; [done|].
    cbn. by rewrite insert_calls_app, app_nil_r.
Qed.

Lemma uploader_run_no_insert_without_collection_witness :
  ∃ e w',
    AstraDBUploader.run (sample_uploader 1536 None 20) sample_contents
      (sample_world refusing_store sample_staged_files None) = (Raise e, w') ∧
    insert_calls (trace w') = [].
Proof.
  apply (uploader_run_no_insert_without_collection
           (sample_world refusing_store sample_staged_files None)
           (sample_uploader 1536 None 20) sample_contents).
  exists (AstraError "create_collection"). vm_compute. reflexivity.
Defined.

(** C5, as stated, fails: an uploader whose configuration requests the
    empty indexing policy makes its [create_collection] call with no
    options at all. *)
Lemma get_collection_drops_empty_policy :
  requested_indexing_policy (upload_config (sample_uploader 1536 (Some []) 20))
    = Some [] ∧
  create_options
    (trace (AstraDBUploader.get_collection (sample_uploader 1536 (Some []) 20)
              (sample_world willing_store ∅ None)).2)
    = [None].
Proof. split; reflexivity. Qed.

(** C5, amended. [get_collection] forwards the indexing policy, as it is,
    under the key ["indexing"] of the creation options exactly when the
    requested policy is present and not empty; when no policy was
    requested, or an empty one, it sends no options. *)
Theorem get_collection_forwards_policy
    (w : world) (self : AstraDBUploader) :
  astrapy_installed (remote w) = true →
  ∃ r w',
    AstraDBUploader.get_collection self w = (r, w') ∧
    create_options (trace w') =
      create_options (trace w) ++
      [match requested_indexing_policy (upload_config self) with
       | Some (e :: p) => Some [("indexing", JObj (e :: p))]
       | Some [] => None
       | None => None
       end].
Proof.
  intros Hinst. rewrite get_collection_eval, Hinst.
  eexists _, _. split; [reflexivity|]. cbn.
  unfold create_options. rewrite omap_app. cbn. unfold creation_options.
  by destruct (requested_indexing_policy (upload_config self)) as [[|e p]|].
Qed.

Lemma get_collection_forwards_policy_witness :
  ∃ r w',
    AstraDBUploader.get_collection
      (sample_uploader 1536 (Some [("deny", JArr [JStr "metadata"])]) 20)
      (sample_world willing_store ∅ None) = (r, w') ∧
    create_options (trace w') =
      [Some [("indexing", JObj [("deny", JArr [JStr "metadata"])])]].
Proof.
  apply (get_collection_forwards_policy
           (sample_world willing_store ∅ None)
           (sample_uploader 1536 (Some [("deny", JArr [JStr "metadata"])]) 20)).
  reflexivity.
Defined.

(** C6, as stated, fails: a configuration with dimension 0 and batch size
    0 is constructed without error, and a run with it gets as far as
    asking the store for a collection of dimension 0. *)
Lemma uploader_config_accepts_nonpositive :
  new_AstraDBUploaderConfig "docs" 0 None None (Some 0)
    = Ok (upload_config (sample_uploader 0 None 0)) ∧
  In (EvCreateCollection "docs" 0 None)
     (trace (AstraDBUploader.run (sample_uploader 0 None 0) sample_contents
               (sample_world willing_store sample_staged_files None)).2).
Proof.
  split; [reflexivity|]. vm_compute. auto.
Qed.

(** C6, amended. Constructing an uploader configuration checks nothing:
    every dimension and every batch size, positive or not, is accepted
    and stored as given (the batch size defaulting to 20), and
    [get_collection] passes the dimension on to the store unchanged. *)
Theorem uploader_config_unvalidated
    (name : string) (dimension : Z) (ns : option string)
    (policy : option dict) (size : option Z) :
  ∃ c,
    new_AstraDBUploaderConfig name dimension ns policy size = Ok c ∧
    collection_name c = name ∧
    embedding_dimension c = dimension ∧
    namespace c = ns ∧
    requested_indexing_policy c = policy ∧
    batch_size c = default 20 size ∧
    ∀ w conn tag,
      astrapy_installed (remote w) = true →
      last (trace (AstraDBUploader.get_collection
                     {| connection_config := conn; upload_config := c;
                        connector_type := tag |} w).2)
        = Some (EvCreateCollection name dimension (creation_options c)).
Proof.
  eexists. split_and!; try reflexivity.
  intros w conn tag Hinst. rewrite get_collection_eval, Hinst.
  cbn [snd trace set_trace]. unfold provisioning_events.
  match goal with
  | |- last (?t ++ [?x; ?y]) = _ =>
      replace (t ++ [x; y]) with ((t ++ [x]) ++ [y])
        by (by rewrite <- app_assoc)
  end.
  apply last_snoc.
Qed.

Lemma uploader_config_unvalidated_witness :
  ∃ c,
    new_AstraDBUploaderConfig "docs" 0 None None (Some 0) = Ok c ∧
    embedding_dimension c = 0 ∧
    batch_size c = 0 ∧
    last (trace (AstraDBUploader.get_collection
                   {| connection_config :=
                        connection_config (sample_uploader 0 None 0);
                      upload_config := c;
                      connector_type := CONNECTOR_TYPE |}
                   (sample_world willing_store ∅ None)).2)
      = Some (EvCreateCollection "docs" 0 None).
Proof.
  destruct (uploader_config_unvalidated "docs" 0 None None (Some 0))
    as (c & Hnew & Hname & Hdim & Hns & Hpol & Hsize & Hget).
  exists c. split_and!; try done.
  rewrite (Hget (sample_world willing_store ∅ None)
             (connection_config (sample_uploader 0 None 0)) CONNECTOR_TYPE)
    by reflexivity.
  unfold creation_options. by rewrite Hpol.
Defined.

(** * Further properties *)

(** ** Loops and frames *)

Section for_each_facts.
Context {A B : Type}.
Implicit Types (body : A → M B) (xs ys : list A) (w : world).

(** A loop whose body raises at [y], after going well over [xs], raises
    there. *)
Lemma for_each_app_raise body xs y ys w rs w1 e w2 :
  for_each body xs w = (Ok rs, w1) →
  body y w1 = (Raise e, w2) →
  for_each body (xs ++ y :: ys) w = (Raise e, w2).
Proof.
  revert w rs. induction xs as [|x xs IH]; intros w rs Hxs Hy.
  - injection Hxs as <- <-. cbn [app for_each]. by apply bind_raise.
  - cbn [app for_each] in *. unfold mbind, M_bind in Hxs |- *.
    destruct (body x w) as [[r|e'] w'] eqn:Hx; [|done].
    destruct (for_each body xs w') as [[rs'|e'] w''] eqn:Hrest; [|done].
    injection Hxs as <- <-. fold (@for_each A B) in *.
    by rewrite (IH w' rs' Hrest Hy).
Qed.

Lemma preserves_bind (R : world → world → Prop) (m : M A) (k : A → M B) :
  (∀ a b c, R a b → R b c → R a c) →
  preserves R m → (∀ a, preserves R (k a)) → preserves R (m ≫= k).
Proof.
  intros Htrans Hm Hk w. unfold mbind, M_bind.
  specialize (Hm w). destruct (m w) as [[a|e] w1]; [|done].
  eapply Htrans; [exact Hm|apply Hk].
Qed.

Lemma preserves_bind_ok (R : world → world → Prop) (P : A → Prop)
    (m : M A) (k : A → M B) :
  (∀ a b c, R a b → R b c → R a c) →
  (∀ w a w', m w = (Ok a, w') → P a) →
  preserves R m → (∀ a, P a → preserves R (k a)) → preserves R (m ≫= k).
Proof.
  intros Htrans HP Hm Hk w. unfold mbind, M_bind.
  specialize (Hm w). specialize (HP w).
  destruct (m w) as [[a|e] w1]; [|done].
  eapply Htrans; [exact Hm|]. apply Hk. by eapply HP.
Qed.

Lemma preserves_for_each (R : world → world → Prop) body xs :
  (∀ a, R a a) → (∀ a b c, R a b → R b c → R a c) →
  (∀ x, preserves R (body x)) → preserves R (for_each body xs).
Proof.
  intros Hrefl Htrans Hbody. induction xs as [|x xs IH]; [intros w; apply Hrefl|].
  cbn [for_each]. intros w. unfold mbind, M_bind.
  pose proof (Hbody x w) as Hx. destruct (body x w) as [[r|e] w1]; [|done].
  pose proof (IH w1) as Hxs.
  destruct (for_each body xs w1) as [[rs|e] w2]; by eapply Htrans.
Qed.
End for_each_facts.

Lemma iter_items_eval v w :
  iter_items v w =
    match iterable_items v with
    | Some items => (Ok items, w)
    | None => (Raise TypeError, w)
    end.
Proof. by destruct v. Qed.

Lemma stager_frame_refl out w : stager_frame out w w.
Proof. by repeat split. Qed.

Lemma stager_frame_trans out a b c :
  stager_frame out a b → stager_frame out b c → stager_frame out a c.
Proof.
  intros (H1 & H2 & H3 & H4) (H1' & H2' & H3' & H4'). split_and!; try congruence.
  intros p Hp. by rewrite H4', H4.
Qed.

Lemma conform_dict_frame out l :
  preserves (stager_frame out) (AstraDBUploadStager.conform_dict l).
Proof.
  assert (∀ k, preserves (stager_frame out) (py_pop l k JNull)) as Hpop.
  { intros k w. unfold py_pop.
    destruct (heap w !! l) as [[| | | | | |d]|]; try apply stager_frame_refl.
    by repeat split. }
  unfold AstraDBUploadStager.conform_dict.
  apply preserves_bind; [apply stager_frame_trans|apply Hpop|]. intros v.
  apply preserves_bind; [apply stager_frame_trans|apply Hpop|]. intros c.
  intros w. apply stager_frame_refl.
Qed.

Lemma stager_run_frame_aux inp dir name :
  preserves (stager_frame (path_join dir (name +:+ ".json")))
    (AstraDBUploadStager.run inp dir name).
Proof.
  set (out := path_join dir (name +:+ ".json")).
  unfold AstraDBUploadStager.run. fold out.
  apply preserves_bind; [apply stager_frame_trans| |].
  { intros w. unfold json_load. destruct (files w !! inp) as [text|];
      [destruct (json_loads text)|]; apply stager_frame_refl. }
  intros v. apply preserves_bind; [apply stager_frame_trans| |].
  { unfold py_iter. apply preserves_bind; [apply stager_frame_trans| |].
    - intros w. rewrite iter_items_eval.
      destruct (iterable_items v); apply stager_frame_refl.
    - intros items. apply preserves_for_each;
        [apply stager_frame_refl|apply stager_frame_trans|].
      intros x w. by repeat split. }
  intros ls. apply preserves_bind; [apply stager_frame_trans| |].
  { apply preserves_for_each;
      [apply stager_frame_refl|apply stager_frame_trans|].
    intros l. apply conform_dict_frame. }
  intros recs.
  apply (preserves_bind_ok _ (fun f => f = out));
    [apply stager_frame_trans| | |].
  { intros w f w'. unfold open_w. destruct (unwritable w out); [done|].
    by intros [= <- _]. }
  { intros w. unfold open_w. destruct (unwritable w out);
      [apply stager_frame_refl|].
    split_and!; try done. intros p Hp. cbn. by rewrite lookup_insert_ne. }
  intros f ->. apply preserves_bind; [apply stager_frame_trans| |].
  { intros w. unfold json_dump.
    apply (preserves_bind (stager_frame out)); [apply stager_frame_trans| |].
    - apply preserves_for_each;
        [apply stager_frame_refl|apply stager_frame_trans|].
      intros c w0. unfold fp_write.
      destruct (quota w0) as [[|q]|]; [apply stager_frame_refl| |];
        (split_and!; try done; intros p Hp; cbn; by rewrite lookup_insert_ne).
    - intros _ w0. apply stager_frame_refl. }
  intros _ w. apply stager_frame_refl.
Qed.

(** ** More on the staging transform *)

Lemma conform_dict_non_dict w l x :
  heap w !! l = Some x → is_dict x = false →
  AstraDBUploadStager.conform_dict l w = (Raise (pop_error x), w).
Proof.
  intros Hl Hx. unfold AstraDBUploadStager.conform_dict.
  apply bind_raise. unfold py_pop. rewrite Hl. by destruct x.
Qed.

Lemma stripped_filter d :
  stripped d = filter (fun e => e.1 ≠ "embeddings" ∧ e.1 ≠ "text") d.
Proof.
  unfold stripped. induction d as [|[k v] d IH]; [done|].
  rewrite filter_cons. cbn [dict_del fst].
  destruct (String.eqb k "embeddings") eqn:E1.
  - apply String.eqb_eq in E1 as ->. rewrite decide_False by naive_solver.
    exact IH.
  - apply String.eqb_neq in E1. cbn [dict_del].
    destruct (String.eqb k "text") eqn:E2.
    + apply String.eqb_eq in E2 as ->. rewrite decide_False by naive_solver.
      exact IH.
    + apply String.eqb_neq in E2. rewrite decide_True by done.
      by rewrite IH.
Qed.

Lemma stripped_idemp d : stripped (stripped d) = stripped d.
Proof.
  rewrite !stripped_filter. induction d as [|e d IH]; [done|].
  rewrite filter_cons. case_decide; [|done].
  rewrite filter_cons, decide_True by done. by rewrite IH.
Qed.

Lemma field_stripped d :
  field "embeddings" (stripped d) = JNull ∧ field "text" (stripped d) = JNull.
Proof.
  unfold field, stripped. rewrite dict_get_del_ne by done.
  by rewrite !dict_get_del_eq.
Qed.

(** ** Further properties of the stager *)

(** X1. [run] on an input file that does not exist raises
    [FileNotFoundError], and on one whose document is [null], a boolean
    or a number raises [TypeError]; either way the world is as it was:
    no output file is created. *)
Theorem stager_run_unreadable_input (w : world) (inp dir name : string) :
  (files w !! inp = None →
   AstraDBUploadStager.run inp dir name w
     = (Raise (FileNotFoundError inp), w)) ∧
  (∀ text v,
     files w !! inp = Some text → json_loads text = Some v →
     iterable_items v = None →
     AstraDBUploadStager.run inp dir name w = (Raise TypeError, w)).
Proof.
  split.
  - intros Hf. unfold AstraDBUploadStager.run. apply bind_raise.
    unfold json_load. by rewrite Hf.
  - intros text v Hf Hl Hv. unfold AstraDBUploadStager.run.
    assert (json_load inp w = (Ok v, w)) as H1.
    { unfold json_load. by rewrite Hf, Hl. }
    rewrite (bind_ok _ _ _ _ _ H1). apply bind_raise.
    unfold py_iter. apply bind_raise. by rewrite iter_items_eval, Hv.
Qed.

Lemma stager_run_unreadable_input_witness :
  AstraDBUploadStager.run "nowhere.json" "out" "staged"
    (sample_world willing_store sample_elements_file None)
  = (Raise (FileNotFoundError "nowhere.json"),
     sample_world willing_store sample_elements_file None) ∧
  AstraDBUploadStager.run "n.json" "out" "staged"
    (sample_world willing_store {[ "n.json" := [LInt 3] ]} None)
  = (Raise TypeError,
     sample_world willing_store {[ "n.json" := [LInt 3] ]} None).
Proof.
  split.
  - refine (proj1 (stager_run_unreadable_input
                     (sample_world willing_store sample_elements_file None)
                     "nowhere.json" "out" "staged") _).
    reflexivity.
  - refine (proj2 (stager_run_unreadable_input
                     (sample_world willing_store
                        {[ "n.json" := [LInt 3] ]} None)
                     "n.json" "out" "staged") [LInt 3] (JInt 3) _ _ _);
      reflexivity.
Defined.

(** X2. When the input document yields items of which the first that is
    not a dict is [x], [run] raises on [x] ([TypeError] for a list,
    [AttributeError] for anything else) before the output file is
    opened: no file is changed. *)
Theorem stager_run_non_dict_element
    (w : world) (inp dir name : string) (text : list lexeme) (v : json)
    (ds : list dict) (x : json) (rest : list json) :
  files w !! inp = Some text →
  json_loads text = Some v →
  iterable_items v = Some (map JObj ds ++ x :: rest) →
  is_dict x = false →
  ∃ w',
    AstraDBUploadStager.run inp dir name w = (Raise (pop_error x), w') ∧
    files w' = files w.
Proof.
  intros Hf Hl Hv Hx. unfold AstraDBUploadStager.run.
  assert (json_load inp w = (Ok v, w)) as H1.
  { unfold json_load. by rewrite Hf, Hl. }
  rewrite (bind_ok _ _ _ _ _ H1).
  destruct (alloc_all (map JObj ds ++ x :: rest) w)
    as (ls & h & Hal & Hnd & Hall & _).
  assert (py_iter v w = (Ok ls, set_heap h w)) as H2.
  { unfold py_iter.
    rewrite (bind_ok (iter_items v) _ w (map JObj ds ++ x :: rest) w);
      [done|by rewrite iter_items_eval, Hv]. }
  rewrite (bind_ok _ _ _ _ _ H2).
  apply Forall2_app_inv_r in Hall as (ls1 & ls2 & Hall1 & Hall2 & ->).
  apply Forall2_cons_inv_r in Hall2 as (l & ls3 & Hl0 & _ & ->).
  apply NoDup_app in Hnd as (Hnd1 & Hdisj & _).
  destruct (conform_all ls1 ds (set_heap h w)) as (h' & Hc & _ & Hold);
    [done|by apply Forall2_fmap_r in Hall1|].
  assert (heap (set_heap h' (set_heap h w)) !! l = Some x) as Hx'.
  { cbn. rewrite Hold; [done|]. intros Hin. apply (Hdisj l Hin). left. }
  exists (set_heap h' (set_heap h w)). split; [|done].
  apply bind_raise.
  eapply for_each_app_raise; [exact Hc|].
  by apply conform_dict_non_dict.
Qed.

Lemma stager_run_non_dict_element_witness :
  ∃ w',
    AstraDBUploadStager.run "elements.json" "out" "staged"
      (sample_world willing_store sample_mixed_file None)
    = (Raise AttributeError, w') ∧
    files w' = sample_mixed_file.
Proof.
  apply (stager_run_non_dict_element
           (sample_world willing_store sample_mixed_file None)
           "elements.json" "out" "staged"
           (iterencode (JArr [JObj sample_element; JInt 7]))
           (JArr [JObj sample_element; JInt 7])
           [sample_element] (JInt 7) []);
    reflexivity.
Defined.

(** X3. When the output path cannot be opened for writing, [run] on an
    array of dicts raises the error [open] raises there
    ([FileNotFoundError] when a directory on the way is missing,
    [PermissionError] when permission is denied, [IsADirectoryError]
    when the path names a directory, [OSError] otherwise) and no file is
    changed. *)
Theorem stager_run_unwritable
    (w : world) (inp dir name : string) (text : list lexeme)
    (elems : list dict) :
  files w !! inp = Some text →
  json_loads text = Some (JArr (map JObj elems)) →
  unwritable w (path_join dir (name +:+ ".json")) = true →
  ∃ w',
    AstraDBUploadStager.run inp dir name w
      = (Raise
           (match denial w (path_join dir (name +:+ ".json")) with
            | NoDirectory =>
                FileNotFoundError (path_join dir (name +:+ ".json"))
            | NoPermission =>
                PermissionError (path_join dir (name +:+ ".json"))
            | IsDirectory =>
                IsADirectoryError (path_join dir (name +:+ ".json"))
            | OtherFailure => OSError (path_join dir (name +:+ ".json"))
            end), w') ∧
    files w' = files w.
Proof.
  intros Hf Hl Hw. unfold AstraDBUploadStager.run.
  assert (json_load inp w = (Ok (JArr (map JObj elems)), w)) as H1.
  { unfold json_load. by rewrite Hf, Hl. }
  rewrite (bind_ok _ _ _ _ _ H1).
  destruct (alloc_all (map JObj elems) w) as (ls & h & Hal & Hnd & Hall & _).
  assert (py_iter (JArr (map JObj elems)) w = (Ok ls, set_heap h w)) as H2.
  { unfold py_iter. cbn [iter_items].
    by rewrite (bind_ok (mret (map JObj elems)) _ w (map JObj elems) w). }
  rewrite (bind_ok _ _ _ _ _ H2).
  destruct (conform_all ls elems (set_heap h w)) as (h' & Hc & _ & _);
    [done|by apply Forall2_fmap_r in Hall|].
  rewrite (bind_ok _ _ _ _ _ Hc).
  exists (set_heap h' (set_heap h w)). split; [|done].
  apply bind_raise. unfold open_w. cbn [unwritable denial set_heap].
  rewrite Hw. unfold open_error.
  by destruct (denial w _).
Qed.

Lemma stager_run_unwritable_witness :
  (∃ w',
     AstraDBUploadStager.run "elements.json" "out" "staged"
       (locked_world NoDirectory sample_elements_file)
     = (Raise (FileNotFoundError "out/staged.json"), w') ∧
     files w' = sample_elements_file) ∧
  (∃ w',
     AstraDBUploadStager.run "elements.json" "out" "staged"
       (locked_world NoPermission sample_elements_file)
     = (Raise (PermissionError "out/staged.json"), w') ∧
     files w' = sample_elements_file).
Proof.
  split.
  - apply (stager_run_unwritable
             (locked_world NoDirectory sample_elements_file)
             "elements.json" "out" "staged"
             (iterencode (JArr [JObj sample_element])) [sample_element]);
      reflexivity.
  - apply (stager_run_unwritable
             (locked_world NoPermission sample_elements_file)
             "elements.json" "out" "staged"
             (iterencode (JArr [JObj sample_element])) [sample_element]);
      reflexivity.
Defined.

(** X4. Whatever the input and whether it returns or raises, the
    stager's [run] makes no call on the remote store and writes no log
    line, and leaves every file but the one at its output path as it
    was. *)
Theorem stager_run_touches_only_output
    (w : world) (inp dir name : string) :
  trace (AstraDBUploadStager.run inp dir name w).2 = trace w ∧
  ∀ p, p ≠ path_join dir (name +:+ ".json") →
       files (AstraDBUploadStager.run inp dir name w).2 !! p = files w !! p.
Proof.
  destruct (stager_run_frame_aux inp dir name w) as (Ht & _ & _ & Hf).
  by split.
Qed.

(** X5. [conform_dict] moves the values: the value under [embeddings]
    goes, as it is, under ["$vector"], the value under [text] under
    ["content"], and the dict left behind holds the other entries, each
    with its value, in the order they had. *)
Theorem conform_dict_moves_values (w : world) (l : loc) (d : dict) :
  heap w !! l = Some (JObj d) →
  ∃ rec w',
    AstraDBUploadStager.conform_dict l w = (Ok rec, w') ∧
    (∀ v, dict_get "embeddings" d = Some v →
          rec !! 0%nat = Some ("$vector", Imm v)) ∧
    (∀ v, dict_get "text" d = Some v →
          rec !! 1%nat = Some ("content", Imm v)) ∧
    heap w' !! l
      = Some (JObj (filter (fun e => e.1 ≠ "embeddings" ∧ e.1 ≠ "text") d)).
Proof.
  intros Hl. eexists _, _. split_and!.
  - by apply conform_dict_dict.
  - intros v Hv. cbn. unfold field. by rewrite Hv.
  - intros v Hv. cbn. unfold field. by rewrite Hv.
  - cbn. rewrite lookup_insert_eq. by rewrite stripped_filter.
Qed.

Lemma conform_dict_moves_values_witness :
  ∃ rec w',
    AstraDBUploadStager.conform_dict 1%positive
      (sample_store (JObj sample_element)) = (Ok rec, w') ∧
    rec !! 0%nat
      = Some ("$vector", Imm (JArr [JFloat "0.1"; JFloat "0.2"])) ∧
    rec !! 1%nat = Some ("content", Imm (JStr "hi")) ∧
    heap w' !! 1%positive = Some (JObj [("source", JStr "a")]).
Proof.
  destruct (conform_dict_moves_values (sample_store (JObj sample_element))
              1%positive sample_element eq_refl)
    as (rec & w' & Hrun & Hv & Hc & Hm).
  exists rec, w'. split_and!.
  - exact Hrun.
  - apply Hv. reflexivity.
  - apply Hc. reflexivity.
  - exact Hm.
Defined.

(** X6. [conform_dict] is single-use: called again on the dict it has
    already conformed, it returns [None] for both the vector and the
    content and leaves the store as the first call left it. *)
Theorem conform_dict_second_call (w : world) (l : loc) (d : dict) :
  heap w !! l = Some (JObj d) →
  ∃ rec1 w1 w2,
    AstraDBUploadStager.conform_dict l w = (Ok rec1, w1) ∧
    AstraDBUploadStager.conform_dict l w1
      = (Ok [("$vector", Imm JNull); ("content", Imm JNull);
             ("metadata", Ref l)], w2) ∧
    heap w2 = heap w1.
Proof.
  intros Hl.
  set (w1 := set_heap (<[l := JObj (stripped d)]> (heap w)) w).
  assert (heap w1 !! l = Some (JObj (stripped d))) as Hl1
    by apply lookup_insert_eq.
  exists (staged_slots l d), w1, w1. split_and!.
  - by apply conform_dict_dict.
  - rewrite (conform_dict_dict w1 l (stripped d) Hl1).
    unfold staged_slots. destruct (field_stripped d) as [-> ->].
    rewrite stripped_idemp. f_equal.
    change (set_heap (<[l:=JObj (stripped d)]> (heap w1)) w
            = set_heap (heap w1) w).
    by rewrite (insert_id (heap w1) l _ Hl1).
  - done.
Qed.

Lemma conform_dict_second_call_witness :
  ∃ rec1 w1 w2,
    AstraDBUploadStager.conform_dict 1%positive
      (sample_store (JObj sample_element)) = (Ok rec1, w1) ∧
    AstraDBUploadStager.conform_dict 1%positive w1
      = (Ok [("$vector", Imm JNull); ("content", Imm JNull);
             ("metadata", Ref 1%positive)], w2) ∧
    heap w2 = heap w1.
Proof.
  apply (conform_dict_second_call (sample_store (JObj sample_element))
           1%positive sample_element).
  reflexivity.
Defined.

(** ** More on the uploader *)

Lemma uploader_frame_refl w : uploader_frame w w.
Proof. split_and!; try done. exists []. by rewrite app_nil_r. Qed.

Lemma uploader_frame_trans a b c :
  uploader_frame a b → uploader_frame b c → uploader_frame a c.
Proof.
  intros (H1 & H2 & H3 & H4 & H5 & t & Ht) (H1' & H2' & H3' & H4' & H5' & t' & Ht').
  split_and!; try congruence.
  exists (t ++ t'). by rewrite Ht', Ht, app_assoc.
Qed.

Lemma uploader_frame_emit e w : uploader_frame w (emit e w).
Proof. split_and!; try done. by exists [e]. Qed.

Lemma load_contents_frame contents acc :
  preserves uploader_frame (load_contents contents acc).
Proof.
  intros w. destruct (load_contents contents acc w) as [r w'] eqn:E.
  apply load_contents_world in E as ->. apply uploader_frame_refl.
Qed.

Lemma get_collection_frame self :
  preserves uploader_frame (AstraDBUploader.get_collection self).
Proof.
  intros w. rewrite get_collection_eval.
  destruct (astrapy_installed (remote w)); [|apply uploader_frame_refl].
  split_and!; try done. by eexists.
Qed.

Lemma uploader_run_frame_aux self contents :
  preserves uploader_frame (AstraDBUploader.run self contents).
Proof.
  unfold AstraDBUploader.run.
  apply preserves_bind; [apply uploader_frame_trans| |].
  { apply load_contents_frame. }
  intros records. apply preserves_bind; [apply uploader_frame_trans| |].
  { intros w. apply uploader_frame_emit. }
  intros _. apply preserves_bind; [apply uploader_frame_trans| |].
  { apply get_collection_frame. }
  intros coll. apply preserves_bind; [apply uploader_frame_trans| |].
  { apply preserves_for_each;
      [apply uploader_frame_refl|apply uploader_frame_trans|].
    intros c w. unfold insert_many.
    destruct (insert_many_fails _ _ _); apply uploader_frame_emit. }
  intros _ w. apply uploader_frame_refl.
Qed.

Lemma json_load_world p w r w' : json_load p w = (r, w') → w' = w.
Proof.
  unfold json_load. destruct (files w !! p) as [text|];
    [destruct (json_loads text)|]; by intros [= _ <-].
Qed.

(** A content that cannot be read stops the first loop of [run], with
    the world as it was. *)
Lemma load_contents_unreadable contents : ∀ acc w c,
  c ∈ contents → unreadable w c →
  ∃ e, load_contents contents acc w = (Raise e, w).
Proof.
  induction contents as [|c0 cs IH]; intros acc w c Hin Hbad.
  - by apply elem_of_nil in Hin.
  - cbn [load_contents].
    destruct (json_load (path c0) w) as [[v|e] w1] eqn:Hload.
    2: { pose proof (json_load_world _ _ _ _ Hload) as ->.
         exists e. by apply bind_raise. }
    assert (w1 = w ∧ ∃ text, files w !! path c0 = Some text ∧
                              json_loads text = Some v) as [-> Hv].
    { unfold json_load in Hload.
      destruct (files w !! path c0) as [text|]; [|done].
      destruct (json_loads text) as [v'|] eqn:E; [|done].
      injection Hload as <- <-. eauto. }
    rewrite (bind_ok _ _ _ _ _ Hload).
    destruct Hv as (text & Hf & Hl).
    destruct (iterable_items v) as [items|] eqn:Hitems.
    + rewrite (bind_ok (iter_items v) _ w items w)
        by (by rewrite iter_items_eval, Hitems).
      apply elem_of_cons in Hin as [->|Hin].
      * unfold unreadable in Hbad. rewrite Hf, Hl in Hbad. congruence.
      * by eapply IH.
    + exists TypeError. apply bind_raise. by rewrite iter_items_eval, Hitems.
Qed.

(** With the staged files read and the collection provisioned, what is
    left of [run] is the loop over the chunks. *)
Lemma uploader_run_loaded w self contents records :
  load_contents contents [] w = (Ok records, w) →
  provisioning_fails (remote w) self = false →
  AstraDBUploader.run self contents w =
    (for_each
       (insert_many {| handle_name := collection_name (upload_config self) |})
       (batch_generator records (batch_size (upload_config self)))
     ≫= fun _ => mret tt)
      (set_trace
         (trace w ++
          EvLogInfo (length records) (collection_name (upload_config self))
          :: provisioning_events (remote w) self) w).
Proof.
  intros Hload Hprov. unfold AstraDBUploader.run.
  rewrite (bind_ok _ _ _ _ _ Hload).
  set (w1 := emit (EvLogInfo (length records)
                     (collection_name (upload_config self))) w).
  rewrite (bind_ok (log_info _ _) _ w tt w1) by done.
  unfold provisioning_fails in Hprov.
  apply orb_false_iff in Hprov as [Hinst%negb_false_iff Hcreate].
  pose proof (get_collection_eval self w1) as Hget.
  change (remote w1) with (remote w) in Hget.
  rewrite Hinst, Hcreate in Hget.
  rewrite (bind_ok _ _ _ _ _ Hget).
  unfold w1, emit, set_trace. cbn. by rewrite <- app_assoc.
Qed.

Lemma insert_count t :
  length (filter (fun e => is_insert e = true) t) = length (insert_calls t).
Proof.
  induction t as [|e t IH]; [done|].
  rewrite filter_cons. destruct e; cbn [is_insert];
    case_decide; try done; cbn; by rewrite IH.
Qed.

(** The loop over the chunks, when the store takes the first [k] chunks
    and refuses the next. *)
Lemma insert_until_refused coll chunks : ∀ w k c,
  chunks !! k = Some c →
  (∀ i ci, (i < k)%nat → chunks !! i = Some ci →
     insert_many_fails (remote w)
       (length (insert_calls (trace w)) + i) ci = false) →
  insert_many_fails (remote w) (length (insert_calls (trace w)) + k) c
    = true →
  for_each (insert_many coll) chunks w =
    (Raise (AstraError "insert_many"),
     set_trace
       (trace w ++ map (EvInsertMany (handle_name coll)) (take (S k) chunks))
       w).
Proof.
  induction chunks as [|c0 cs IH]; intros w k c Hk Hok Hbad; [done|].
  cbn [for_each]. destruct k as [|k].
  - injection Hk as ->. apply bind_raise. unfold insert_many.
    by rewrite insert_count, <- (Nat.add_0_r (length _)), Hbad.
  - set (w1 := emit (EvInsertMany (handle_name coll) c0) w).
    assert (insert_many coll c0 w = (Ok tt, w1)) as H1.
    { unfold insert_many.
      rewrite insert_count, <- (Nat.add_0_r (length _)).
      rewrite (Hok 0%nat c0) by (done || lia). done. }
    rewrite (bind_ok _ _ _ _ _ H1).
    assert (length (insert_calls (trace w1))
            = S (length (insert_calls (trace w)))) as Hcount.
    { unfold w1. cbn. rewrite insert_calls_app, length_app. cbn. lia. }
    assert (for_each (insert_many coll) cs w1 =
              (Raise (AstraError "insert_many"),
               set_trace
                 (trace w1 ++
                  map (EvInsertMany (handle_name coll)) (take (S k) cs))
                 w1)) as Hrest.
    { apply (IH w1 k c Hk).
      - intros i ci Hi Hci. rewrite Hcount.
        replace (S (length (insert_calls (trace w))) + i)%nat
          with (length (insert_calls (trace w)) + S i)%nat by lia.
        apply Hok; [lia|done].
      - rewrite Hcount.
        by replace (S (length (insert_calls (trace w))) + k)%nat
          with (length (insert_calls (trace w)) + S k)%nat by lia. }
    rewrite (bind_raise _ _ _ _ _ Hrest).
    unfold w1, emit, set_trace. cbn. by rewrite <- app_assoc.
Qed.

(** ** Further properties of the uploader *)

(** X7. If one of the staged files is missing, is not JSON, or holds
    [null], a boolean or a number, the uploader's [run] raises while
    reading, with the world as it was: nothing is logged and no call is
    made on the store. *)
Theorem uploader_run_unreadable_content
    (w : world) (self : AstraDBUploader) (contents : list UploadContent)
    (c : UploadContent) :
  c ∈ contents → unreadable w c →
  ∃ e, AstraDBUploader.run self contents w = (Raise e, w).
Proof.
  intros Hin Hbad.
  destruct (load_contents_unreadable contents [] w c Hin Hbad) as [e He].
  exists e. unfold AstraDBUploader.run. by apply bind_raise.
Qed.

Lemma uploader_run_unreadable_content_witness :
  ∃ e,
    AstraDBUploader.run (sample_uploader 1536 None 20)
      [{| path := "a.json" |}; {| path := "gone.json" |}]
      (sample_world willing_store sample_staged_files None)
    = (Raise e, sample_world willing_store sample_staged_files None).
Proof.
  apply (uploader_run_unreadable_content
           (sample_world willing_store sample_staged_files None)
           (sample_uploader 1536 None 20)
           [{| path := "a.json" |}; {| path := "gone.json" |}]
           {| path := "gone.json" |}).
  - right. left.
  - vm_compute. exact I.
Defined.

(** X8. If the store takes the first [k] chunks and refuses the next,
    [run] raises the store's error at once: the [insert_many] calls made
    are those for the first [k + 1] chunks, in order, and no later chunk
    is sent. *)
Theorem uploader_run_stops_at_refused_chunk
    (w : world) (self : AstraDBUploader) (contents : list UploadContent)
    (staged : list (list json)) (k : nat) (c : list json) :
  holds_arrays w contents staged →
  provisioning_fails (remote w) self = false →
  batch_generator (concat staged) (batch_size (upload_config self)) !! k
    = Some c →
  (∀ i ci, (i < k)%nat →
     batch_generator (concat staged) (batch_size (upload_config self)) !! i
       = Some ci →
     insert_many_fails (remote w)
       (length (insert_calls (trace w)) + i) ci = false) →
  insert_many_fails (remote w) (length (insert_calls (trace w)) + k) c
    = true →
  ∃ w',
    AstraDBUploader.run self contents w
      = (Raise (AstraError "insert_many"), w') ∧
    insert_calls (trace w') =
      insert_calls (trace w) ++
      take (S k)
        (batch_generator (concat staged) (batch_size (upload_config self))).
Proof.
  intros Hfiles Hprov Hk Hok Hbad.
  rewrite (uploader_run_loaded w self contents (concat staged)
             (load_contents_arrays _ _ w [] Hfiles) Hprov).
  match goal with
  | |- context [set_trace ?t w] => set (w2 := set_trace t w)
  end.
  assert (insert_calls (trace w2) = insert_calls (trace w)) as Hcalls.
  { unfold w2. cbn [trace set_trace].
    change (EvLogInfo ?n ?x :: ?t) with ([EvLogInfo n x] ++ t).
    rewrite !insert_calls_app. cbn. by rewrite !app_nil_r. }
  pose proof (insert_until_refused
                {| handle_name := collection_name (upload_config self) |}
                _ w2 k c Hk) as Hloop.
  rewrite Hcalls in Hloop. specialize (Hloop Hok Hbad).
  eexists. split; [by apply bind_raise|].
  cbn [trace set_trace]. rewrite insert_calls_app, Hcalls.
  by rewrite insert_calls_inserts.
Qed.

Lemma uploader_run_stops_at_refused_chunk_witness :
  ∃ w',
    AstraDBUploader.run (sample_uploader 1536 None 20) sample_contents
      (sample_world (store_refusing_insert 1) sample_staged_files None)
    = (Raise (AstraError "insert_many"), w') ∧
    insert_calls (trace w')
      = take 2 (batch_generator (sample_records 0 45) 20).
Proof.
  apply (uploader_run_stops_at_refused_chunk
           (sample_world (store_refusing_insert 1) sample_staged_files None)
           (sample_uploader 1536 None 20) sample_contents
           [sample_records 0 30; sample_records 30 15]
           1%nat (sample_records 20 20)).
  - repeat constructor; eexists; split; vm_compute; reflexivity.
  - reflexivity.
  - vm_compute. reflexivity.
  - intros i ci Hi _. destruct i; [reflexivity|lia].
  - reflexivity.
Defined.

(** X9. With a positive batch size, a run in which the staged files are
    read, the collection is provisioned and the store takes every chunk
    goes through, and does things in this order: one log line
    with the number of records and the collection name, the client built
    from the configured endpoint, token and namespace under the caller
    name ["unstructured"], one [create_collection] call for the
    configured name and dimension, then the [insert_many] calls, all on
    the collection of that name. *)
Theorem uploader_run_call_order
    (w : world) (self : AstraDBUploader) (contents : list UploadContent)
    (staged : list (list json)) :
  holds_arrays w contents staged →
  provisioning_fails (remote w) self = false →
  (∀ n c, insert_many_fails (remote w) n c = false) →
  0 < batch_size (upload_config self) →
  ∃ w',
    AstraDBUploader.run self contents w = (Ok tt, w') ∧
    trace w' =
      trace w ++
      [EvLogInfo (length (concat staged))
         (collection_name (upload_config self));
       EvAstraDB (api_endpoint (access_config (connection_config self)))
         (token (access_config (connection_config self)))
         (namespace (upload_config self)) "unstructured"
         (integration_version (remote w));
       EvCreateCollection (collection_name (upload_config self))
         (embedding_dimension (upload_config self))
         (creation_options (upload_config self))] ++
      map (EvInsertMany (collection_name (upload_config self)))
        (batch_generator (concat staged) (batch_size (upload_config self))).
Proof.
  intros Hfiles Hprov Hins _.
  rewrite (uploader_run_loaded w self contents (concat staged)
             (load_contents_arrays _ _ w [] Hfiles) Hprov).
  match goal with
  | |- context [set_trace ?t w] => set (w2 := set_trace t w)
  end.
  destruct (insert_all
              {| handle_name := collection_name (upload_config self) |}
              (batch_generator (concat staged)
                 (batch_size (upload_config self))) w2 Hins) as [us Hus].
  rewrite (bind_ok _ _ _ _ _ Hus). eexists. split; [reflexivity|].
  cbn. by rewrite <- app_assoc.
Qed.

Lemma uploader_run_call_order_witness :
  ∃ w',
    AstraDBUploader.run (sample_uploader 1536 None 20) sample_contents
      (sample_world willing_store sample_staged_files None) = (Ok tt, w') ∧
    trace w' =
      [EvLogInfo 45 "docs";
       EvAstraDB "https://db.example" "AstraCS:t" None "unstructured"
         "0.14.6";
       EvCreateCollection "docs" 1536 None] ++
      map (EvInsertMany "docs") (batch_generator (sample_records 0 45) 20).
Proof.
  apply (uploader_run_call_order
           (sample_world willing_store sample_staged_files None)
           (sample_uploader 1536 None 20) sample_contents
           [sample_records 0 30; sample_records 30 15]).
  - repeat constructor; eexists; split; vm_compute; reflexivity.
  - reflexivity.
  - reflexivity.
  - reflexivity.
Defined.

(** X10. Whatever its input and whether it returns or raises, the
    uploader's [run] writes no file and changes no object of the store
    of Python objects; the calls and log lines recorded before it are
    still there, in place, after it. *)
Theorem uploader_run_changes_only_trace
    (w : world) (self : AstraDBUploader) (contents : list UploadContent) :
  files (AstraDBUploader.run self contents w).2 = files w ∧
  heap (AstraDBUploader.run self contents w).2 = heap w ∧
  ∃ t, trace (AstraDBUploader.run self contents w).2 = trace w ++ t.
Proof.
  destruct (uploader_run_frame_aux self contents w)
    as (Hh & Hf & _ & _ & _ & Ht).
  by split_and!.
Qed.

(** X11. Without the [astrapy] package, [get_collection] raises
    [ImportError] before it builds a client: the world is as it was.
    With it, the client is built and [create_collection] called, once
    each, and [get_collection] returns the handle of the configured
    collection unless the store refuses, in which case the store's error
    is raised. *)
Theorem get_collection_outcome (w : world) (self : AstraDBUploader) :
  (astrapy_installed (remote w) = false →
   AstraDBUploader.get_collection self w
     = (Raise (ImportError "astrapy"), w)) ∧
  (astrapy_installed (remote w) = true →
   ∃ w',
     AstraDBUploader.get_collection self w =
       (if create_collection_fails (remote w)
             (collection_name (upload_config self))
             (embedding_dimension (upload_config self))
             (creation_options (upload_config self))
        then Raise (AstraError "create_collection")
        else Ok {| handle_name := collection_name (upload_config self) |},
        w') ∧
     trace w' =
       trace w ++
       [EvAstraDB (api_endpoint (access_config (connection_config self)))
          (token (access_config (connection_config self)))
          (namespace (upload_config self)) "unstructured"
          (integration_version (remote w));
        EvCreateCollection (collection_name (upload_config self))
          (embedding_dimension (upload_config self))
          (creation_options (upload_config self))]).
Proof.
  split; intros Hinst; rewrite get_collection_eval, Hinst; [done|].
  eexists. split; reflexivity.
Qed.

Lemma get_collection_outcome_witness :
  AstraDBUploader.get_collection (sample_uploader 1536 None 20)
    (sample_world store_without_astrapy ∅ None)
  = (Raise (ImportError "astrapy"),
     sample_world store_without_astrapy ∅ None) ∧
  ∃ w',
    AstraDBUploader.get_collection (sample_uploader 1536 None 20)
      (sample_world refusing_store ∅ None)
    = (Raise (AstraError "create_collection"), w') ∧
    trace w' =
      [EvAstraDB "https://db.example" "AstraCS:t" None "unstructured"
         "0.14.6";
       EvCreateCollection "docs" 1536 None].
Proof.
  split.
  - refine (proj1 (get_collection_outcome
                     (sample_world store_without_astrapy ∅ None)
                     (sample_uploader 1536 None 20)) _).
    reflexivity.
  - refine (proj2 (get_collection_outcome
                     (sample_world refusing_store ∅ None)
                     (sample_uploader 1536 None 20)) _).
    reflexivity.
Defined.

(** X12. With no record to upload (no staged file, or only empty
    arrays) and a positive batch size, [run] still provisions the
    collection, with one [create_collection] call, and then makes no
    [insert_many] call. *)
Theorem uploader_run_no_records
    (w : world) (self : AstraDBUploader) (contents : list UploadContent)
    (staged : list (list json)) :
  holds_arrays w contents staged →
  concat staged = [] →
  provisioning_fails (remote w) self = false →
  0 < batch_size (upload_config self) →
  ∃ w',
    AstraDBUploader.run self contents w = (Ok tt, w') ∧
    insert_calls (trace w') = insert_calls (trace w) ∧
    create_options (trace w') =
      create_options (trace w) ++ [creation_options (upload_config self)].
Proof.
  intros Hfiles Hnil Hprov _.
  rewrite (uploader_run_loaded w self contents (concat staged)
             (load_contents_arrays _ _ w [] Hfiles) Hprov).
  rewrite Hnil. eexists. split_and!; [reflexivity| |].
  - cbn [snd trace set_trace].
    change (EvLogInfo ?n ?x :: ?t) with ([EvLogInfo n x] ++ t).
    rewrite !insert_calls_app. cbn. by rewrite !app_nil_r.
  - cbn [snd trace set_trace]. unfold create_options.
    by rewrite omap_app.
Qed.

Lemma uploader_run_no_records_witness :
  ∃ w',
    AstraDBUploader.run (sample_uploader 1536 None 20) []
      (sample_world willing_store ∅ None) = (Ok tt, w') ∧
    insert_calls (trace w') = [] ∧
    create_options (trace w') = [None].
Proof.
  apply (uploader_run_no_records (sample_world willing_store ∅ None)
           (sample_uploader 1536 None 20) [] []).
  - constructor.
  - reflexivity.
  - reflexivity.
  - reflexivity.
Defined.

(** X13. Staging and uploading compose: when the stager's [run] has
    written its output for an array of element dicts, the uploader's
    [run] on that output file, with a positive batch size, sends the
    staged records of those elements: the chunks it submits are those of
    [batch_generator], and put end to end they are the staged records,
    each once, in the elements' order. *)
Theorem stage_then_upload
    (w : world) (self : AstraDBUploader) (inp dir name : string)
    (text : list lexeme) (elems : list dict) :
  files w !! inp = Some text →
  json_loads text = Some (JArr (map JObj elems)) →
  unwritable w (path_join dir (name +:+ ".json")) = false →
  quota w = None →
  provisioning_fails (remote w) self = false →
  (∀ n c, insert_many_fails (remote w) n c = false) →
  0 < batch_size (upload_config self) →
  ∃ w1 w2 chunks,
    AstraDBUploadStager.run inp dir name w
      = (Ok (path_join dir (name +:+ ".json")), w1) ∧
    AstraDBUploader.run self
      [{| path := path_join dir (name +:+ ".json") |}] w1 = (Ok tt, w2) ∧
    insert_calls (trace w2) = insert_calls (trace w) ++ chunks ∧
    chunks =
      batch_generator (map staged_of elems)
        (batch_size (upload_config self)) ∧
    concat chunks = map staged_of elems.
Proof.
  intros Hf Hl Hw Hq Hprov Hins Hpos.
  destruct (stager_run_complete w inp dir name text elems Hf Hl Hw)
    as (w1 & Hrun & Hfile & Hback).
  { intros q. by rewrite Hq. }
  pose proof (stager_run_frame_aux inp dir name w) as (Ht & Hr & _ & _).
  rewrite Hrun in Ht, Hr. cbn [snd] in Ht, Hr.
  assert (load_contents [{| path := path_join dir (name +:+ ".json") |}] []
            w1 = (Ok (map staged_of elems), w1)) as Hload.
  { rewrite (load_contents_arrays _ [map staged_of elems] w1 []).
    - cbn. by rewrite app_nil_r.
    - constructor; [|constructor]. eauto. }
  rewrite <- Hr in Hprov, Hins.
  pose proof (uploader_run_loaded w1 self _ _ Hload Hprov) as Hup.
  match type of Hup with
  | context [set_trace ?t w1] => set (w2 := set_trace t w1) in Hup
  end.
  destruct (insert_all
              {| handle_name := collection_name (upload_config self) |}
              (batch_generator (map staged_of elems)
                 (batch_size (upload_config self))) w2 Hins) as [us Hus].
  rewrite (bind_ok _ _ _ _ _ Hus) in Hup.
  eexists w1, _, _. split_and!; [done|exact Hup| |reflexivity|].
  - cbn [snd trace set_trace]. unfold w2. cbn [trace set_trace]. rewrite Ht.
    change (EvLogInfo ?n ?x :: ?t) with ([EvLogInfo n x] ++ t).
    rewrite !insert_calls_app, insert_calls_inserts. cbn.
    by rewrite !app_nil_r.
  - by apply batch_generator_partition.
Qed.

Lemma stage_then_upload_witness :
  ∃ w1 w2,
    AstraDBUploadStager.run "elements.json" "out" "staged"
      (sample_world willing_store sample_three_file None)
    = (Ok "out/staged.json", w1) ∧
    AstraDBUploader.run (sample_uploader 1 None 2)
      [{| path := "out/staged.json" |}] w1 = (Ok tt, w2) ∧
    insert_calls (trace w2)
      = [take 2 sample_three_staged; drop 2 sample_three_staged].
Proof.
  destruct (stage_then_upload
              (sample_world willing_store sample_three_file None)
              (sample_uploader 1 None 2) "elements.json" "out" "staged"
              (iterencode (JArr (map JObj sample_three_elements)))
              sample_three_elements)
    as (w1 & w2 & chunks & Hstage & Hup & Hcalls & -> & _);
    try reflexivity.
  exists w1, w2. split_and!; [exact Hstage|exact Hup|exact Hcalls].
Defined.

(** X14. The uploader does not check that a staged file holds an array:
    when the file holds a JSON object, [extend] takes the object's keys,
    and [run], with a positive batch size, goes through and uploads
    those strings as the records: the chunks it submits, put end to end,
    are the keys in their order. *)
Theorem uploader_run_object_file
    (w : world) (self : AstraDBUploader) (c : UploadContent)
    (text : list lexeme) (d : dict) :
  files w !! path c = Some text →
  json_loads text = Some (JObj d) →
  provisioning_fails (remote w) self = false →
  (∀ n ch, insert_many_fails (remote w) n ch = false) →
  0 < batch_size (upload_config self) →
  ∃ w' chunks,
    AstraDBUploader.run self [c] w = (Ok tt, w') ∧
    insert_calls (trace w') = insert_calls (trace w) ++ chunks ∧
    chunks =
      batch_generator (map JStr (dict_keys d))
        (batch_size (upload_config self)) ∧
    concat chunks = map JStr (dict_keys d).
Proof.
  intros Hf Hl Hprov Hins Hpos.
  assert (load_contents [c] [] w = (Ok (map JStr (dict_keys d)), w))
    as Hload.
  { cbn [load_contents].
    assert (json_load (path c) w = (Ok (JObj d), w)) as H1.
    { unfold json_load. by rewrite Hf, Hl. }
    rewrite (bind_ok _ _ _ _ _ H1). done. }
  rewrite (uploader_run_loaded w self _ _ Hload Hprov).
  match goal with
  | |- context [set_trace ?t w] => set (w2 := set_trace t w)
  end.
  destruct (insert_all
              {| handle_name := collection_name (upload_config self) |}
              (batch_generator (map JStr (dict_keys d))
                 (batch_size (upload_config self))) w2 Hins) as [us Hus].
  rewrite (bind_ok _ _ _ _ _ Hus).
  eexists _, _. split_and!; [reflexivity| |reflexivity|].
  - cbn [snd trace set_trace]. unfold w2. cbn [trace set_trace].
    change (EvLogInfo ?n ?x :: ?t) with ([EvLogInfo n x] ++ t).
    rewrite !insert_calls_app, insert_calls_inserts. cbn.
    by rewrite !app_nil_r.
  - by apply batch_generator_partition.
Qed.

Lemma uploader_run_object_file_witness :
  ∃ w',
    AstraDBUploader.run (sample_uploader 1536 None 2)
      [{| path := "one.json" |}]
      (sample_world willing_store
         {[ "one.json" := iterencode sample_staged ]} None) = (Ok tt, w') ∧
    insert_calls (trace w')
      = [[JStr "$vector"; JStr "content"]; [JStr "metadata"]].
Proof.
  destruct (uploader_run_object_file
              (sample_world willing_store
                 {[ "one.json" := iterencode sample_staged ]} None)
              (sample_uploader 1536 None 2) {| path := "one.json" |}
              (iterencode sample_staged)
              [("$vector", JArr [JFloat "0.1"; JFloat "0.2"]);
               ("content", JStr "hi");
               ("metadata", JObj [("source", JStr "a")])])
    as (w' & chunks & Hrun & Hcalls & -> & _); try reflexivity.
  exists w'. split; [exact Hrun|exact Hcalls].
Defined.
